(** * Cascade: the changepoint detection job of [detect/bocd.py]

    The job wraps a third-party Bayesian online changepoint engine (the
    [BOCD] object imported at the top of the file) in a small class,
    [BOCPDDetector], and drives one such detector per index over the
    rows of the [daily_index] table, writing one row to [alerts].

    The engine is not part of the repository: it is an interface here
    (class [BOCD]), and every statement about the detector and the job
    is made for an arbitrary engine.  A small test double, [Stub], is
    only used to run the definitions on concrete inputs. *)

From Stdlib Require Import Floats ZArith Uint63.
From stdpp Require Import gmap strings list sorting.

Local Open Scope Z_scope.

(** ** Python values and exceptions *)

(** The exceptions that can leave the modelled code.  [EngineError]
    stands for whatever the engine raises; the wrapper catches
    nothing.  [InvalidRef] is never raised by Python: it is the lookup
    of a reference that was never allocated in the object store.
    [TypeError] is what pandas raises for the mean of a column of
    dates. *)
Inductive exn : Type :=
| IndexError
| EngineError (msg : string)
| InvalidRef
| TypeError.

Inductive result (A : Type) : Type :=
| Ok (a : A)
| Raise (e : exn).
Arguments Ok {A} a.
Arguments Raise {A} e.

#[global] Instance result_ret : MRet result := fun _ a => Ok a.
#[global] Instance result_bind : MBind result := fun _ _ f m =>
  match m with
  | Ok a => f a
  | Raise e => Raise e
  end.
#[global] Instance result_fmap : FMap result := fun _ _ f m =>
  match m with
  | Ok a => Ok (f a)
  | Raise e => Raise e
  end.

(** ** The engine interface

    What [BOCPDDetector] uses of the engine: the constructor
    [BOCD(hazard=...)], the in-place [update(val)], which may raise, and
    [get_posterior()], which returns the run-length posterior as an
    array. *)
Class BOCD (E : Type) : Type := {
  bocd_new : Z -> E;
  bocd_update : E -> float -> result E;
  get_posterior : E -> list float
}.

(** The argument of [BOCPDDetector.update]: a Python scalar, which the
    method wraps in a one-element array, or an array of observations. *)
Inductive input : Type :=
| Scalar (x : float)
| Array (xs : list float).

Section Detector.
Context {E : Type} `{!BOCD E}.

(** *** class BOCPDDetector *)

Record BOCPDDetector : Type := mkDetector {
  hazard : Z;
  detector : E;
  posterior_history : list (list float)
}.

(** [__init__(self, hazard=250)] *)
Definition init (hazard : Z) : BOCPDDetector :=
  {| hazard := hazard;
     detector := bocd_new hazard;
     posterior_history := [] |}.

Definition default_hazard : Z := 250.

(** [for val in x: self.detector.update(val)] *)
Fixpoint feed (x : list float) (e : E) : result E :=
  match x with
  | [] => Ok e
  | val :: x' => e' ← bocd_update e val; feed x' e'
  end.

(** [posterior[0]] on an array. *)
Definition item0 (posterior : list float) : result float :=
  match posterior with
  | [] => Raise IndexError
  | p :: _ => Ok p
  end.

(** [update(self, x)]: the value returned and the object after the
    call, or the exception that leaves the method. *)
Definition update (x : input) (self : BOCPDDetector)
  : result (float * BOCPDDetector) :=
  let x := match x with Scalar v => [v] | Array vs => vs end in
  e ← feed x (detector self);
  let posterior := get_posterior e in
  let self' := {| hazard := hazard self;
                  detector := e;
                  posterior_history := posterior_history self ++ [posterior] |} in
  p_cp ← item0 posterior;
  Ok (p_cp, self').

(** The names an instance answers to: the attributes set by
    [__init__] and the methods of the class body. *)
Definition BOCPDDetector_attributes : list string :=
  ["hazard"; "detector"; "posterior_history"]%string.
Definition BOCPDDetector_methods : list string :=
  ["__init__"; "update"]%string.
Definition hasattr (name : string) : bool :=
  bool_decide (name ∈ BOCPDDetector_attributes ++ BOCPDDetector_methods).

(** Feeding a sequence one observation per call, collecting what each
    call returns. *)
Fixpoint run_sequence (xs : list float) (self : BOCPDDetector)
  : result (list float * BOCPDDetector) :=
  match xs with
  | [] => Ok ([], self)
  | x :: xs' =>
      '(p, self') ← update (Scalar x) self;
      '(ps, self'') ← run_sequence xs' self';
      Ok (p :: ps, self'')
  end.

(** *** The object store

    Detectors are objects: [BOCPDDetector(...)] allocates a new one,
    a variable holds a reference, and [update] mutates the object the
    reference points to. *)
Abbreviation store := (list BOCPDDetector).
Abbreviation ref := nat.

Definition new (hazard : Z) (s : store) : ref * store :=
  (length s, s ++ [init hazard]).

Definition call_update (r : ref) (x : input) (s : store)
  : result (float * store) :=
  match s !! r with
  | None => Raise InvalidRef
  | Some self =>
      '(p, self') ← update x self;
      Ok (p, <[r := self']> s)
  end.

Fixpoint replay (r : ref) (xs : list float) (s : store)
  : result (list float * store) :=
  match xs with
  | [] => Ok ([], s)
  | x :: xs' =>
      '(p, s') ← call_update r (Scalar x) s;
      '(ps, s'') ← replay r xs' s';
      Ok (p :: ps, s'')
  end.

(** The engine reaches [e'] from [e] by one step per observation. *)
Inductive advances : E -> list float -> E -> Prop :=
| advances_nil e : advances e [] e
| advances_cons e val e' x e'' :
    bocd_update e val = Ok e' ->
    advances e' x e'' ->
    advances e (val :: x) e''.

End Detector.

Arguments BOCPDDetector E : clear implicits.
Abbreviation store E := (list (BOCPDDetector E)).
Abbreviation ref := nat.

(** *** Detectors and engines as objects

    [self.detector = BOCD(hazard=hazard)] makes an engine object of its
    own and keeps a reference to it; [self.detector.update(val)] changes
    that object in place, and whoever else holds the reference sees the
    change.  The heap keeps the engines and the detectors apart, so
    that two detectors sharing an engine can be told from two detectors
    with an engine each. *)
Record detector_object : Type := mkObject {
  obj_hazard : Z;
  obj_detector : ref;
  obj_history : list (list float)
}.

Record heap (E : Type) : Type := mkHeap {
  engines : list E;
  objects : list detector_object
}.
Arguments mkHeap {E} engines objects.
Arguments engines {E} h.
Arguments objects {E} h.

Section Heap.
Context {E : Type} `{!BOCD E}.

(** [BOCPDDetector(hazard)]: a new engine, a new empty history, and a
    new detector that refers to them. *)
Definition construct (hazard : Z) (h : heap E) : ref * heap E :=
  (length (objects h),
   {| engines := engines h ++ [bocd_new hazard];
      objects := objects h ++ [ {| obj_hazard := hazard;
                                   obj_detector := length (engines h);
                                   obj_history := [] |} ] |}).

(** The detector a reference stands for, with the state of its engine. *)
Definition deref (r : ref) (h : heap E) : option (BOCPDDetector E) :=
  obj ← objects h !! r;
  e ← engines h !! obj_detector obj;
  Some {| hazard := obj_hazard obj;
          detector := e;
          posterior_history := obj_history obj |}.

(** [detector.update(x)] through a reference: the engine the detector
    refers to is advanced in place and the detector's history grows. *)
Definition method_update (r : ref) (x : input) (h : heap E)
  : result (float * heap E) :=
  match objects h !! r, deref r h with
  | Some obj, Some self =>
      '(p, self') ← update x self;
      Ok (p, {| engines := <[obj_detector obj := detector self']> (engines h);
                objects := <[r := {| obj_hazard := hazard self';
                                     obj_detector := obj_detector obj;
                                     obj_history := posterior_history self' |}]>
                             (objects h) |})
  | _, _ => Raise InvalidRef
  end.

Fixpoint feed_through (r : ref) (xs : list float) (h : heap E)
  : result (list float * heap E) :=
  match xs with
  | [] => Ok ([], h)
  | x :: xs' =>
      '(p, h') ← method_update r (Scalar x) h;
      '(ps, h'') ← feed_through r xs' h';
      Ok (p :: ps, h'')
  end.

End Heap.

(** ** The tables of [agidash.duckdb] *)

(** A [DATE] value, as its day number. *)
Definition date : Type := Z.

(** A [FLOAT] column holds single-precision values: a double bound to
    it is stored as the nearest binary32 value, ties to even, and read
    back as that value.  NaN and the infinities are stored as they
    are. *)
Definition to_float32 (x : float) : float :=
  match Prim2SF x with
  | S754_finite s m e => SF2Prim (binary_round 24 128 s m e)
  | _ => x
  end.

(** A finite double beyond the binary32 range has no [FLOAT] value: the
    database refuses it, where [to_float32] gives an infinity.  What is
    said below about stored values is said for values that fit. *)
Definition fits_float32 (x : float) : bool :=
  PrimFloat.is_nan x || PrimFloat.is_infinity x
  || negb (PrimFloat.is_infinity (to_float32 x)).

(** A row of [daily_index]. *)
Record index_row : Type := mkIndexRow {
  row_date : date;
  capability : float;
  attention : float;
  market : float;
  regulatory : float
}.

(** A row of [alerts]. *)
Record alert_row : Type := mkAlertRow {
  alert_date : date;
  capability_prob : float;
  attention_prob : float;
  market_prob : float;
  regulatory_prob : float;
  alert : bool
}.

(** The rows as the tables hold them. *)
Definition stored_index (row : index_row) : index_row :=
  {| row_date := row_date row;
     capability := to_float32 (capability row);
     attention := to_float32 (attention row);
     market := to_float32 (market row);
     regulatory := to_float32 (regulatory row) |}.

Definition stored_alert (row : alert_row) : alert_row :=
  {| alert_date := alert_date row;
     capability_prob := to_float32 (capability_prob row);
     attention_prob := to_float32 (attention_prob row);
     market_prob := to_float32 (market_prob row);
     regulatory_prob := to_float32 (regulatory_prob row);
     alert := alert row |}.

Definition index_row_fits (row : index_row) : bool :=
  fits_float32 (capability row) && fits_float32 (attention row)
  && fits_float32 (market row) && fits_float32 (regulatory row).

(** The database file: [alerts] is [None] until the table is created. *)
Record database : Type := mkDatabase {
  daily_index : list index_row;
  alerts : option (list alert_row)
}.

(** A frame as [load_daily_indices] builds it: the [date] column and
    the float columns by name.  [pd.DataFrame([])] has neither rows nor
    columns. *)
Record DataFrame : Type := mkDataFrame {
  df_date : list date;
  df_columns : gmap string (list float)
}.

Definition df_empty (df : DataFrame) : bool :=
  bool_decide (df_date df = []).

Definition date_le (a b : index_row) : Prop := row_date a ≤ row_date b.
#[global] Instance date_le_dec a b : Decision (date_le a b) := Z_le_dec _ _.

(** [SELECT * FROM daily_index ORDER BY date ASC LIMIT 180] *)
Definition select_daily_index (db : database) : list index_row :=
  take 180 (merge_sort date_le (daily_index db)).

Definition load_daily_indices (db : database) : DataFrame :=
  match select_daily_index db with
  | [] => {| df_date := []; df_columns := ∅ |}
  | rows =>
      {| df_date := row_date <$> rows;
         df_columns :=
           <["capability"%string := capability <$> rows]>
           (<["attention"%string := attention <$> rows]>
           (<["market"%string := market <$> rows]>
           (<["regulatory"%string := regulatory <$> rows]> ∅))) |}
  end.

(** A Python [dict] from index names to floats, in insertion order. *)
Definition dict : Type := list (string * float).

Fixpoint dict_set (k : string) (v : float) (d : dict) : dict :=
  match d with
  | [] => [(k, v)]
  | (k', v') :: d' =>
      if String.eqb k k' then (k, v) :: d' else (k', v') :: dict_set k v d'
  end.

Fixpoint dict_lookup (k : string) (d : dict) : option float :=
  match d with
  | [] => None
  | (k', v') :: d' => if String.eqb k k' then Some v' else dict_lookup k d'
  end.

(** [d.get(k, dflt)] *)
Definition dict_get (k : string) (dflt : float) (d : dict) : float :=
  default dflt (dict_lookup k d).

Definition dict_values (d : dict) : list float := snd <$> d.

(** What [detect_changepoints] returns: [{}] or the dictionary with the
    keys [date], [changepoint_probs] and [alert]. *)
Inductive results : Type :=
| EmptyDict
| Results (date : date) (changepoint_probs : dict) (alert : bool).

(** [p >= 0.5] *)
Definition ge_threshold (p : float) : bool := PrimFloat.leb 0.5 p.

(** [x[~np.isnan(x)]] *)
Definition drop_nan (x : list float) : list float :=
  List.filter (fun v => negb (PrimFloat.is_nan v)) x.

Definition index_names : list string :=
  ["capability"; "attention"; "market"; "regulatory"]%string.

(** The values of one index that reach its detector. *)
Definition index_series (df : DataFrame) (index_name : string) : list float :=
  drop_nan (default [] (df_columns df !! index_name)).

(** The column of [daily_index] behind an index name. *)
Definition index_field (index_name : string) : option (index_row -> float) :=
  if String.eqb index_name "capability" then Some capability
  else if String.eqb index_name "attention" then Some attention
  else if String.eqb index_name "market" then Some market
  else if String.eqb index_name "regulatory" then Some regulatory
  else None.

(** The dictionary entry of one index, if it has one. *)
Definition entry (index_name : string) (o : option float) : dict :=
  from_option (fun p => [(index_name, p)]) [] o.

Section Job.
Context {E : Type} `{!BOCD E}.

(** [for val in x: p_cp = detector.update(val)] on a non-empty [x]:
    what the last call returned. *)
Fixpoint update_each (val : float) (x : list float) (detector : BOCPDDetector E)
  : result (float * BOCPDDetector E) :=
  '(p_cp, detector') ← update (Scalar val) detector;
  match x with
  | [] => Ok (p_cp, detector')
  | val' :: x' => update_each val' x' detector'
  end.

Definition detectors : list (string * BOCPDDetector E) :=
  [("capability"%string, init default_hazard);
   ("attention"%string, init default_hazard);
   ("market"%string, init default_hazard);
   ("regulatory"%string, init default_hazard)].

(** The body of [for index_name, detector in detectors.items()]. *)
Definition detect_index (df : DataFrame) (changepoint_probs : dict)
    (item : string * BOCPDDetector E) : result dict :=
  let '(index_name, detector) := item in
  match df_columns df !! index_name with
  | None => Ok changepoint_probs
  | Some col =>
      match drop_nan col with
      | [] => Ok changepoint_probs
      | val :: x =>
          '(p_cp, _) ← update_each val x detector;
          Ok (dict_set index_name p_cp changepoint_probs)
      end
  end.

Fixpoint detect_each (df : DataFrame) (items : list (string * BOCPDDetector E))
    (changepoint_probs : dict) : result dict :=
  match items with
  | [] => Ok changepoint_probs
  | item :: items' =>
      changepoint_probs' ← detect_index df changepoint_probs item;
      detect_each df items' changepoint_probs'
  end.

(** [CREATE TABLE IF NOT EXISTS alerts] followed by the [INSERT] of the
    parameters [row] into the [DATE], [FLOAT] and [BOOLEAN] columns. *)
Definition insert_alert (row : alert_row) (db : database) : database :=
  {| daily_index := daily_index db;
     alerts := Some (default [] (alerts db) ++ [stored_alert row]) |}.

(** [detect_changepoints(df)]: the value returned or the exception
    raised, and the database afterwards. *)
Definition detect_changepoints (df : DataFrame) (db : database)
  : result results * database :=
  if df_empty df then (Ok EmptyDict, db)
  else
    match last (df_date df) with
    | None => (Raise IndexError, db)
    | Some d =>
        match detect_each df detectors [] with
        | Raise e => (Raise e, db)
        | Ok changepoint_probs =>
            let alert := existsb ge_threshold (dict_values changepoint_probs) in
            let row :=
              {| alert_date := d;
                 capability_prob := dict_get "capability" 0 changepoint_probs;
                 attention_prob := dict_get "attention" 0 changepoint_probs;
                 market_prob := dict_get "market" 0 changepoint_probs;
                 regulatory_prob := dict_get "regulatory" 0 changepoint_probs;
                 alert := alert |} in
            (Ok (Results d changepoint_probs alert), insert_alert row db)
        end
    end.

(** What the loop does for one index: no entry when no value reaches the
    detector, else the value the last [update] returned. *)
Definition index_result (df : DataFrame) (index_name : string) (o : option float) : Prop :=
  match index_series df index_name with
  | [] => o = None
  | val :: x =>
      exists p self', update_each val x (init default_hazard) = Ok (p, self') /\ o = Some p
  end.

End Job.

(** ** [send_alert] *)

(** The one call [send_alert] makes to Slack; the message text is built
    from the date and the probabilities. *)
Inductive slack_call : Type :=
| chat_postMessage (channel : string) (date : date) (changepoint_probs : dict).

(** [results.get('alert', False)] *)
Definition results_alert (r : results) : bool :=
  match r with
  | EmptyDict => false
  | Results _ _ a => a
  end.

(** Truth value of the [SLACK_WEBHOOK] setting: unset or empty is false. *)
Definition truthy (s : option string) : bool :=
  match s with
  | None => false
  | Some s => negb (String.eqb s "")
  end.

Definition send_alert (r : results) (SLACK_WEBHOOK : option string)
  : option slack_call :=
  if negb (results_alert r) || negb (truthy SLACK_WEBHOOK) then None
  else
    match r with
    | EmptyDict => None
    | Results d changepoint_probs _ =>
        Some (chat_postMessage "#alerts" d changepoint_probs)
    end.

(** The alert probability of one index in a row of [alerts]. *)
Definition row_prob (index_name : string) (row : alert_row) : option float :=
  if String.eqb index_name "capability" then Some (capability_prob row)
  else if String.eqb index_name "attention" then Some (attention_prob row)
  else if String.eqb index_name "market" then Some (market_prob row)
  else if String.eqb index_name "regulatory" then Some (regulatory_prob row)
  else None.

(** ** A test double for the engine

    It keeps the observations it was given, newest first.  The mass at
    run length 0 grows with the jump between the last two observations
    and the rest is spread evenly; an infinite observation makes
    [update] raise. *)
Module Stub.

Record state : Type := mkState {
  stub_hazard : Z;
  seen : list float
}.

Definition of_nat (n : nat) : float :=
  PrimFloat.of_uint63 (Uint63.of_Z (Z.of_nat n)).

Definition jump (seen : list float) : float :=
  match seen with
  | [] => 0%float
  | [x] => PrimFloat.abs x
  | x :: y :: _ => PrimFloat.abs (x - y)%float
  end.

Definition posterior (s : state) : list float :=
  match seen s with
  | [] => [1%float]
  | _ :: older =>
      let j := jump (seen s) in
      let p0 := (j / (1 + j))%float in
      let t := S (length older) in
      p0 :: replicate t ((1 - p0) / of_nat t)%float
  end.

Definition is_infinite (x : float) : bool :=
  PrimFloat.eqb (PrimFloat.abs x) PrimFloat.infinity.

Definition step (s : state) (x : float) : result state :=
  if is_infinite x then Raise (EngineError "non-finite observation")
  else Ok {| stub_hazard := stub_hazard s; seen := x :: seen s |}.

#[global] Instance engine : BOCD state := {
  bocd_new hazard := {| stub_hazard := hazard; seen := [] |};
  bocd_update := step;
  get_posterior := posterior
}.

End Stub.

(** ** Concrete inputs *)

(** The store after a first detector was built in the empty store and
    fed 1 and 4. *)
Definition used_store : store Stub.state :=
  [{| hazard := 250;
      detector := {| Stub.stub_hazard := 250; Stub.seen := [4; 1]%float |};
      posterior_history := [[0.5; 0.5]; [0.75; 0.125; 0.125]]%float |}].

Definition no_alerts (rows : list index_row) : database :=
  {| daily_index := rows; alerts := None |}.


(** Two days; nothing was measured for [capability]. *)
Definition quiet_days : list index_row :=
  [ mkIndexRow 2 nan 1%float 4%float 3%float;
    mkIndexRow 1 nan 0%float 1%float 0%float ].

(** What the job computes on [quiet_days] with the test double, and
    the database it leaves. *)
Definition quiet_probs : dict :=
  [("attention", 0.5); ("market", 0.75); ("regulatory", 0.75)]%string%float.

Definition quiet_row : alert_row :=
  {| alert_date := 2;
     capability_prob := 0;
     attention_prob := 0.5;
     market_prob := 0.75;
     regulatory_prob := 0.75;
     alert := true |}.

Definition quiet_after : database :=
  {| daily_index := quiet_days; alerts := Some [quiet_row] |}.

(** 181 days, the value of every index on day [i] being [i]. *)
Definition day (i : nat) : index_row :=
  let v := Stub.of_nat i in mkIndexRow (Z.of_nat i) v v v v.
Definition long_history : list index_row := day <$> seq 1 181.

(** ** [detect_job] and [plot_posterior] *)

Section Schedule.
Context {E : Type} `{!BOCD E}.

(** [detect_job()]: the three ops in sequence.  The Slack call made, if
    any, or the exception that stops the run, and the database
    afterwards. *)
Definition detect_job (SLACK_WEBHOOK : option string) (db : database)
  : result (option slack_call) * database :=
  let indices := load_daily_indices db in
  match detect_changepoints (E := E) indices db with
  | (Ok r, db') => (Ok (send_alert r SLACK_WEBHOOK), db')
  | (Raise e, db') => (Raise e, db')
  end.

End Schedule.

(** [np.vstack] of one-dimensional arrays: a matrix with one row per
    array, or [None] for the [ValueError] raised when there is no array
    or the arrays differ in length. *)
Definition vstack (arrays : list (list float)) : option (list (list float)) :=
  match arrays with
  | [] => None
  | a :: rest =>
      if forallb (fun b => Nat.eqb (length b) (length a)) rest
      then Some arrays else None
  end.

(** [m.T] for a matrix given by its rows. *)
Definition transpose (m : list (list float)) : list (list float) :=
  match m with
  | [] => []
  | a :: _ => (fun j => (fun row => nth j row 0%float) <$> m) <$> seq 0 (length a)
  end.

(** [np.arange(0, n, step)] for a positive [step]: the values
    [i * step] for [i] below [ceil(n / step)]. *)
Definition arange (n step : nat) : list nat :=
  (fun i => i * step)%nat <$> seq 0 ((n + step - 1) / step).

(** [l[::step]] for a positive [step]: the first element, then every
    [step]-th one; [skip] elements are passed over before the next one
    is kept. *)
Fixpoint stride {A : Type} (step skip : nat) (l : list A) : list A :=
  match l with
  | [] => []
  | x :: l' =>
      match skip with
      | O => x :: stride step (step - 1) l'
      | S skip' => stride step skip' l'
      end
  end.

(** What [plot_posterior] hands to matplotlib. *)
Record figure : Type := mkFigure {
  heatmap : list (list float);
  xticks : list nat;
  xticklabels : list date;
  line : list float;
  title : string
}.

Inductive plot_result : Type :=
| NoFigure
| PlotValueError
| Plotted (fig : figure).

Definition plot_posterior {E : Type} (detector : BOCPDDetector E)
    (dates : list date) (values : list float) (title : string) : plot_result :=
  match posterior_history detector with
  | [] => NoFigure
  | history =>
      match vstack history with
      | None => PlotValueError
      | Some posteriors =>
          let step := Nat.max 1 (length dates / 10) in
          Plotted {| heatmap := transpose posteriors;
                     xticks := arange (length dates) step;
                     xticklabels := stride step 0 dates;
                     line := values;
                     title := "Posterior Probabilities of Run Lengths - " ++ title |}
      end
  end.

(** ** More concrete inputs *)

(** A detector of the test double after one call with 1, and after a
    second call with 4. *)
Definition fed_once : BOCPDDetector Stub.state :=
  {| hazard := 250;
     detector := {| Stub.stub_hazard := 250; Stub.seen := [1%float] |};
     posterior_history := [[0.5; 0.5]%float] |}.

Definition fed_twice : BOCPDDetector Stub.state :=
  {| hazard := 250;
     detector := {| Stub.stub_hazard := 250; Stub.seen := [4; 1]%float |};
     posterior_history := [[0.5; 0.5]; [0.75; 0.125; 0.125]]%float |}.

(** Twenty-five consecutive days, and the figure drawn over them for
    [fed_once]. *)
Definition some_days : list date := seqZ 1 25.

Definition fed_once_figure : figure :=
  {| heatmap := [[0.5%float]; [0.5%float]];
     xticks := [0; 2; 4; 6; 8; 10; 12; 14; 16; 18; 20; 22; 24]%nat;
     xticklabels := [1; 3; 5; 7; 9; 11; 13; 15; 17; 19; 21; 23; 25];
     line := [1%float];
     title := "Posterior Probabilities of Run Lengths - market" |}.

(** ** [features/indices.py]

    The rows of [daily_index] are written by the [daily_index] asset,
    which scores the day and turns the scores into z-scores against the
    stored history with [normalize_data]. *)

(** [Series.mean()] and [Series.std()] of a float column: pandas code,
    taken as given. *)
Class Pandas : Type := {
  series_mean : list float -> float;
  series_std : list float -> float
}.

(** A cell of a [date] column: the [datetime.date] read back from the
    table, or the text [strftime] produced.  The two never compare
    equal. *)
Inductive date_cell : Type :=
| DateObject (d : date)
| DateText (d : date).

(** [cell == today], [today] being text. *)
Definition is_text (today : date) (cell : date_cell) : bool :=
  match cell with
  | DateObject _ => false
  | DateText d => bool_decide (d = today)
  end.

(** A frame with a [date] column and float columns by name. *)
Record Frame : Type := mkFrame {
  frame_date : list date_cell;
  frame_columns : gmap string (list float)
}.

Definition frame_empty (df : Frame) : bool :=
  bool_decide (frame_date df = []).

(** [l[mask]] for a boolean mask. *)
Fixpoint select_rows {A : Type} (mask : list bool) (l : list A) : list A :=
  match mask, l with
  | b :: mask', x :: l' =>
      if b then x :: select_rows mask' l' else select_rows mask' l'
  | _, _ => []
  end.

(** The scores of the day as read from the staged Parquet files, [None]
    for a file that is not there. *)
Record staged : Type := mkStaged {
  capabilities_mean : option float;
  trends_mean : option float;
  news_mean : option float;
  polymarket_mean : option float;
  legislation_mean : option float
}.

Definition date_ge (a b : index_row) : Prop := row_date b ≤ row_date a.
#[global] Instance date_ge_dec a b : Decision (date_ge a b) := Z_le_dec _ _.

(** [SELECT * FROM daily_index ORDER BY date DESC LIMIT 180] *)
Definition select_history (db : database) : list index_row :=
  take 180 (merge_sort date_ge (daily_index db)).

Definition index_columns (rows : list index_row) : gmap string (list float) :=
  <["capability"%string := capability <$> rows]>
  (<["attention"%string := attention <$> rows]>
  (<["market"%string := market <$> rows]>
  (<["regulatory"%string := regulatory <$> rows]> ∅))).

Section Indices.
Context `{!Pandas}.

(** [(result[column] - mean) / std], or [0] where [std > 0] fails. *)
Definition zscores (values : list float) : list float :=
  let mean := series_mean values in
  let std := series_std values in
  if PrimFloat.ltb 0 std
  then (fun v => (v - mean) / std)%float <$> values
  else (fun _ => 0%float) <$> values.

(** The body of [for column in columns].  The [date] column is a column
    of the frame like the others: the mean of its dates or texts makes
    pandas raise, unless the frame has no row, where mean and deviation
    are NaN and the (empty) column is set to 0. *)
Definition normalize_column (res : Frame) (column : string) : result Frame :=
  if String.eqb column "date" then
    match frame_date res with
    | [] => Ok res
    | _ :: _ => Raise TypeError
    end
  else
    match frame_columns res !! column with
    | None => Ok res
    | Some values =>
        Ok {| frame_date := frame_date res;
              frame_columns := <[column := zscores values]> (frame_columns res) |}
    end.

Fixpoint normalize_data (df : Frame) (columns : list string) : result Frame :=
  match columns with
  | [] => Ok df
  | column :: columns' =>
      res ← normalize_column df column;
      normalize_data res columns'
  end.

(** [float(index_df[column].iloc[0])] *)
Definition first_value (df : Frame) (column : string) : result float :=
  match frame_columns df !! column ≫= head with
  | Some v => Ok v
  | None => Raise IndexError
  end.

(** The [daily_index] asset from the rows its history query returned
    on: the frame it returns, or the exception, and the database
    afterwards. *)
Definition daily_index_from (today : date) (files : staged)
    (historical : list index_row) (db : database) : result Frame * database :=
  let capability_score := default 0%float (capabilities_mean files) in
  let trends_score := default 0%float (trends_mean files) in
  let news_score := default 0%float (news_mean files) in
  let attention_score := ((trends_score + news_score) / 2)%float in
  let market_score := default 0%float (polymarket_mean files) in
  let regulatory_score := default 0%float (legislation_mean files) in
  let scores := mkIndexRow today capability_score attention_score
                           market_score regulatory_score in
  let index_df := {| frame_date := [DateText today];
                     frame_columns := index_columns [scores] |} in
  let index_df :=
    match historical with
    | [] => Ok index_df
    | _ =>
        let combined_df :=
          {| frame_date := (DateObject ∘ row_date <$> historical) ++ [DateText today];
             frame_columns := index_columns (historical ++ [scores]) |} in
        normalized_df ←
          normalize_data combined_df
            ["capability"; "attention"; "market"; "regulatory"]%string;
        let mask := is_text today <$> frame_date normalized_df in
        Ok {| frame_date := select_rows mask (frame_date normalized_df);
              frame_columns := select_rows mask <$> frame_columns normalized_df |}
    end in
  match
    index_df ← index_df;
    c ← first_value index_df "capability";
    a ← first_value index_df "attention";
    m ← first_value index_df "market";
    r ← first_value index_df "regulatory";
    Ok (index_df, mkIndexRow today c a m r)
  with
  | Raise e => (Raise e, db)
  | Ok (index_df, row) =>
      (Ok index_df,
       {| daily_index := daily_index db ++ [stored_index row];
          alerts := alerts db |})
  end.

(** The [daily_index] asset, given the day and the staged scores. *)
Definition daily_index_asset (today : date) (files : staged) (db : database)
  : result Frame * database :=
  daily_index_from today files (select_history db) db.

(** The scores of the day before normalisation. *)
Definition day_scores (today : date) (files : staged) : index_row :=
  mkIndexRow today
    (default 0%float (capabilities_mean files))
    ((default 0%float (trends_mean files) + default 0%float (news_mean files)) / 2)%float
    (default 0%float (polymarket_mean files))
    (default 0%float (legislation_mean files)).

(** The z-score of the day's score against the stored values of the
    index followed by that score. *)
Definition zscore_of_day (history : list float) (score : float) : float :=
  let values := history ++ [score] in
  if PrimFloat.ltb 0 (series_std values)
  then ((score - series_mean values) / series_std values)%float
  else 0%float.

(** The values the asset binds to the [INSERT]. *)
Definition day_values (today : date) (files : staged) (historical : list index_row)
  : index_row :=
  match historical with
  | [] => day_scores today files
  | _ =>
      mkIndexRow today
        (zscore_of_day (capability <$> historical) (capability (day_scores today files)))
        (zscore_of_day (attention <$> historical) (attention (day_scores today files)))
        (zscore_of_day (market <$> historical) (market (day_scores today files)))
        (zscore_of_day (regulatory <$> historical) (regulatory (day_scores today files)))
  end.

End Indices.

(** A test double for the pandas aggregates: plain left-to-right sums,
    and the sample standard deviation. *)
Module Aggregates.

Definition sum (values : list float) : float := foldl PrimFloat.add 0%float values.

Definition mean (values : list float) : float :=
  (sum values / Stub.of_nat (length values))%float.

Definition std (values : list float) : float :=
  let m := mean values in
  PrimFloat.sqrt
    (sum ((fun v => (v - m) * (v - m))%float <$> values)
     / Stub.of_nat (length values - 1))%float.

#[global] Instance pandas : Pandas := {
  series_mean := mean;
  series_std := std
}.

End Aggregates.

(** Two stored days, and the scores staged for day 3: no capability
    file, Polymarket at 5. *)
Definition two_days : list index_row :=
  [ mkIndexRow 1 2%float 0%float 1%float 0%float;
    mkIndexRow 2 4%float 0%float 3%float 0%float ].

Definition day3_files : staged :=
  {| capabilities_mean := None;
     trends_mean := Some 0%float;
     news_mean := Some 0%float;
     polymarket_mean := Some 5%float;
     legislation_mean := None |}.




(** The heap after two detectors were built in the empty heap, with
    hazards 250 and 100, and the first was fed 1 and 4. *)
Definition fed_heap : heap Stub.state :=
  {| engines := [ {| Stub.stub_hazard := 250; Stub.seen := [4; 1]%float |};
                  {| Stub.stub_hazard := 100; Stub.seen := [] |} ];
     objects := [ {| obj_hazard := 250; obj_detector := 0%nat;
                     obj_history := [[0.5; 0.5]; [0.75; 0.125; 0.125]]%float |};
                  {| obj_hazard := 100; obj_detector := 1%nat; obj_history := [] |} ] |}.

(** A frame of three rows with one float column. *)
Definition market_frame : Frame :=
  {| frame_date := [DateObject 2; DateObject 1; DateText 3];
     frame_columns := {[ "market"%string := [3; 1; 5]%float ]} |}.

(** * Properties *)

(** ** The detector *)

Section DetectorFacts.
Context {E : Type} `{!BOCD E}.

Lemma feed_advances (x : list float) (e e' : E) :
  feed x e = Ok e' <-> advances e x e'.
Proof.
  revert e. induction x as [|val x IH]; intros e; simpl.
  - split.
    + intros [= ->]. constructor.
    + inversion 1. reflexivity.
  - split.
    + destruct (bocd_update e val) as [e1|err] eqn:Hstep; simpl; [|discriminate].
      intros Hfeed. apply IH in Hfeed. econstructor; eassumption.
    + inversion 1 as [|? ? e1 ? ? Hstep Hrest]; subst.
      rewrite Hstep. simpl. apply IH. exact Hrest.
Qed.

Lemma advances_length_one (e e' : E) (value : float) :
  advances e [value] e' <-> bocd_update e value = Ok e'.
Proof.
  split.
  - inversion 1 as [|? ? e1 ? ? Hstep Hrest]; subst.
    inversion Hrest; subst. exact Hstep.
  - intros Hstep. econstructor; [exact Hstep | constructor].
Qed.

Lemma update_spec (x : list float) (self : BOCPDDetector E) e' p rest :
  advances (detector self) x e' ->
  get_posterior e' = p :: rest ->
  update (Array x) self =
    Ok (p, {| hazard := hazard self;
              detector := e';
              posterior_history := posterior_history self ++ [p :: rest] |}).
Proof.
  intros Hadv Hpost. apply feed_advances in Hadv.
  unfold update. rewrite Hadv. simpl. rewrite Hpost. reflexivity.
Qed.

Lemma update_scalar_array (value : float) (self : BOCPDDetector E) :
  update (Scalar value) self = update (Array [value]) self.
Proof. reflexivity. Qed.

(** An exception of the engine leaves [update] unchanged. *)
Lemma update_engine_raises (value : float) (self : BOCPDDetector E) err :
  bocd_update (detector self) value = Raise err ->
  update (Scalar value) self = Raise err.
Proof. intros Hstep. unfold update. simpl. rewrite Hstep. reflexivity. Qed.

Lemma update_hazard (x : input) (self self' : BOCPDDetector E) p :
  update x self = Ok (p, self') -> hazard self' = hazard self.
Proof.
  unfold update.
  destruct (feed _ (detector self)) as [e|]; simpl; [|discriminate].
  destruct (get_posterior e); simpl; [discriminate|].
  intros [= _ <-]. reflexivity.
Qed.

Lemma run_sequence_hazard (xs : list float) (self self' : BOCPDDetector E) ps :
  run_sequence xs self = Ok (ps, self') -> hazard self' = hazard self.
Proof.
  revert self ps. induction xs as [|x xs IH]; intros self ps; simpl.
  - intros [= _ <-]. reflexivity.
  - destruct (update (Scalar x) self) as [[p d1]|] eqn:Hup; simpl; [|discriminate].
    destruct (run_sequence xs d1) as [[ps1 d2]|] eqn:Hrun; simpl; [|discriminate].
    intros [= _ <-]. rewrite (IH _ _ Hrun). eapply update_hazard, Hup.
Qed.

(** Calls through a reference act on the object it points to, and on
    nothing else in the store. *)
Lemma replay_run (r : ref) (xs : list float) (s : store E) (self : BOCPDDetector E) :
  s !! r = Some self ->
  replay r xs s =
    (prod_map id (fun self' => <[r := self']> s) <$> run_sequence xs self).
Proof.
  revert s self. induction xs as [|x xs IH]; intros s self Hlook; simpl.
  - unfold prod_map; simpl. rewrite list_insert_id by exact Hlook. reflexivity.
  - unfold call_update. rewrite Hlook.
    destruct (update (Scalar x) self) as [[p d1]|] eqn:Hup; simpl; [|reflexivity].
    assert (Hlt : (r < length s)%nat) by (eapply lookup_lt_Some; eassumption).
    rewrite (IH _ d1) by (apply list_lookup_insert_eq; exact Hlt).
    destruct (run_sequence xs d1) as [[ps d2]|]; simpl; [|reflexivity].
    unfold prod_map; simpl. rewrite list_insert_insert_eq. reflexivity.
Qed.

Lemma new_lookup (hz : Z) (s : store E) :
  (new hz s).2 !! (new hz s).1 = Some (init hz).
Proof.
  unfold new; simpl. rewrite lookup_app_r by reflexivity.
  rewrite Nat.sub_diag. reflexivity.
Qed.

Lemma replay_new (hz : Z) (xs : list float) (s : store E) :
  fst <$> replay (new hz s).1 xs (new hz s).2 = fst <$> run_sequence xs (init hz).
Proof.
  rewrite (replay_run _ _ _ _ (new_lookup hz s)).
  destruct (run_sequence xs (init hz)) as [[ps d]|]; reflexivity.
Qed.

End DetectorFacts.

Section DetectorClaims.
Context {E : Type} `{!BOCD E}.

(** C1. One call of [update] with a single observation steps the
    engine once, returns element 0 of the posterior the engine then
    reports, and appends that whole posterior to [posterior_history]. *)
Theorem update_one_observation (self : BOCPDDetector E) (value : float) e' p rest :
  bocd_update (detector self) value = Ok e' ->
  get_posterior e' = p :: rest ->
  update (Scalar value) self =
    Ok (p, {| hazard := hazard self;
              detector := e';
              posterior_history := posterior_history self ++ [p :: rest] |}).
Proof.
  intros Hstep Hpost. rewrite update_scalar_array.
  apply update_spec; [|exact Hpost].
  apply advances_length_one. exact Hstep.
Qed.

(** C9. One call of [update] with an array of [n >= 1] observations
    steps the engine [n] times, appends exactly one posterior, the one
    after the last step, and returns its element 0. *)
Theorem update_many_observations (self : BOCPDDetector E) (x : list float) e' p rest :
  (1 <= length x)%nat ->
  advances (detector self) x e' ->
  get_posterior e' = p :: rest ->
  exists self',
    update (Array x) self = Ok (p, self') /\
    detector self' = e' /\
    posterior_history self' = posterior_history self ++ [p :: rest] /\
    length (posterior_history self') = S (length (posterior_history self)).
Proof.
  intros _ Hadv Hpost. eexists. split; [apply update_spec; eassumption|].
  simpl. repeat split. rewrite length_app. simpl. lia.
Qed.

(** C3, as the code has it.  There is no [reset]; [update] leaves the
    [hazard] attribute alone, so a detector constructed anew from the
    used one's hazard starts in the initial state and, replaying the
    same sequence, returns the same probabilities. *)
Theorem rebuilt_detector_replays (hz : Z) (xs : list float) (s s1 : store E) ps :
  replay (new hz s).1 xs (new hz s).2 = Ok (ps, s1) ->
  exists used,
    s1 !! (new hz s).1 = Some used /\
    (new (hazard used) s1).2 !! (new (hazard used) s1).1 = Some (init hz) /\
    fst <$> replay (new (hazard used) s1).1 xs (new (hazard used) s1).2 = Ok ps.
Proof.
  intros Hrep. pose proof (new_lookup hz s) as Hnew.
  rewrite (replay_run _ _ _ _ Hnew) in Hrep.
  destruct (run_sequence xs (init hz)) as [[ps1 used]|] eqn:Hrun;
    simpl in Hrep; [|discriminate].
  injection Hrep as -> <-. exists used.
  assert (Hhz : hazard used = hz) by apply (run_sequence_hazard _ _ _ _ Hrun).
  split.
  - apply list_lookup_insert_eq. eapply lookup_lt_Some, Hnew.
  - rewrite Hhz. split; [apply new_lookup|].
    rewrite replay_new, Hrun. reflexivity.
Qed.

End DetectorClaims.

(** ** Detectors on the heap *)

Section HeapFacts.
Context {E : Type} `{!BOCD E}.

Lemma construct_deref (hz : Z) (h : heap E) :
  deref (construct hz h).1 (construct hz h).2 = Some (init hz).
Proof.
  unfold deref, construct. cbn [fst snd objects engines].
  rewrite lookup_app_r, Nat.sub_diag by reflexivity. cbn.
  rewrite lookup_app_r, Nat.sub_diag by reflexivity. reflexivity.
Qed.




(** A call through [r] leaves alone every detector that does not share
    its engine. *)
Lemma method_update_frame (r r' : ref) (x : input) (h h' : heap E) p (k k' : ref) :
  obj_detector <$> objects h !! r = Some k ->
  obj_detector <$> objects h !! r' = Some k' ->
  r <> r' -> k <> k' ->
  method_update r x h = Ok (p, h') ->
  deref r' h' = deref r' h /\
  obj_detector <$> objects h' !! r = Some k /\
  obj_detector <$> objects h' !! r' = Some k'.
Proof.
  intros Hk Hk' Hr Hne. unfold method_update.
  destruct (objects h !! r) as [obj|] eqn:Hobj; [|discriminate].
  injection Hk as <-.
  destruct (deref r h) as [self|]; [|discriminate].
  destruct (update x self) as [[p0 self']|]; [|discriminate].
  cbn. intros [= <- <-]. unfold deref. cbn [objects engines].
  rewrite list_lookup_insert_ne by exact Hr.
  rewrite list_lookup_insert_eq by (eapply lookup_lt_Some; eassumption).
  destruct (objects h !! r') as [obj'|]; [|discriminate].
  injection Hk' as <-. cbn.
  rewrite list_lookup_insert_ne by exact Hne. repeat split.
Qed.

Lemma feed_through_frame (r r' : ref) (xs : list float) (h h' : heap E) ps (k k' : ref) :
  obj_detector <$> objects h !! r = Some k ->
  obj_detector <$> objects h !! r' = Some k' ->
  r <> r' -> k <> k' ->
  feed_through r xs h = Ok (ps, h') ->
  deref r' h' = deref r' h.
Proof.
  intros Hk Hk' Hr Hne. revert h ps Hk Hk'.
  induction xs as [|x xs IH]; intros h ps Hk Hk'; simpl.
  - intros [= _ <-]. reflexivity.
  - destruct (method_update r (Scalar x) h) as [[p h1]|] eqn:Hup; [|discriminate].
    cbn. destruct (feed_through r xs h1) as [[ps1 h2]|] eqn:Hrest; [|discriminate].
    cbn. intros [= _ <-].
    destruct (method_update_frame _ _ _ _ _ _ _ _ Hk Hk' Hr Hne Hup) as (Hd & Hk1 & Hk1').
    rewrite (IH _ _ Hk1 Hk1' Hrest). exact Hd.
Qed.


(** Feeding one detector leaves a detector constructed beside it in its
    initial state: two detectors share neither engine nor history. *)
Theorem detectors_do_not_interfere (hz1 hz2 : Z) (xs : list float)
    (h h' : heap E) ps :
  feed_through (construct hz1 h).1 xs (construct hz2 (construct hz1 h).2).2
    = Ok (ps, h') ->
  deref (construct hz2 (construct hz1 h).2).1 h' = Some (init hz2).
Proof.
  intros Hfeed.
  rewrite <- (construct_deref hz2 (construct hz1 h).2).
  refine (feed_through_frame _ _ _ _ _ _ (length (engines h)) (S (length (engines h)))
            _ _ _ _ Hfeed); cbn [construct fst snd objects engines].
  - rewrite lookup_app_l by (rewrite length_app; simpl; lia).
    rewrite lookup_app_r, Nat.sub_diag by reflexivity. reflexivity.
  - rewrite length_app. simpl.
    rewrite lookup_app_r by (rewrite length_app; simpl; lia).
    rewrite length_app. simpl.
    replace (length (objects h) + 1 - (length (objects h) + 1))%nat with 0%nat by lia.
    cbn. f_equal. rewrite length_app. simpl. lia.
  - rewrite length_app. simpl. lia.
  - lia.
Qed.

End HeapFacts.

(** C3, as stated: an instance has no attribute or method [reset]. *)
Lemma reset_is_missing : hasattr "reset" = false.
Proof. reflexivity. Qed.

Lemma update_one_observation_witness :
  update (Scalar 1%float) (init (E := Stub.state) 250) =
    Ok (0.5%float,
        {| hazard := 250;
           detector := {| Stub.stub_hazard := 250; Stub.seen := [1%float] |};
           posterior_history := [[0.5; 0.5]%float] |}).
Proof.
  exact (update_one_observation (init (E := Stub.state) 250) 1%float
           {| Stub.stub_hazard := 250; Stub.seen := [1%float] |}
           0.5%float [0.5%float] eq_refl eq_refl).
Defined.

Lemma update_many_observations_witness :
  exists self',
    update (Array [1; 4]%float) (init (E := Stub.state) 250) = Ok (0.75%float, self') /\
    detector self' = {| Stub.stub_hazard := 250; Stub.seen := [4; 1]%float |} /\
    posterior_history self' = [] ++ [[0.75; 0.125; 0.125]%float] /\
    length (posterior_history self') = 1%nat.
Proof.
  apply (update_many_observations (init (E := Stub.state) 250) [1; 4]%float).
  - simpl. lia.
  - econstructor; [reflexivity|]. econstructor; [reflexivity|]. constructor.
  - reflexivity.
Defined.

Lemma rebuilt_detector_replays_witness :
  exists used : BOCPDDetector Stub.state,
    used_store !! (new 250 []).1 = Some used /\
    (new (hazard used) used_store).2 !! (new (hazard used) used_store).1 = Some (init 250) /\
    fst <$> replay (new (hazard used) used_store).1 [1; 4]%float
              (new (hazard used) used_store).2 = Ok [0.5; 0.75]%float.
Proof.
  exact (rebuilt_detector_replays 250 [1; 4]%float [] used_store [0.5; 0.75]%float eq_refl).
Defined.

(** ** The job *)

Section JobFacts.
Context {E : Type} `{!BOCD E}.

(** The inner loop returns what the last of the calls returned. *)
Lemma update_each_run (x : list float) (val : float) (d d' : BOCPDDetector E) p :
  update_each val x d = Ok (p, d') ->
  exists ps, run_sequence (val :: x) d = Ok (ps, d') /\ last ps = Some p.
Proof.
  revert val d. induction x as [|val' x IH]; intros val d; simpl.
  - destruct (update (Scalar val) d) as [[p1 d1]|]; simpl; [|discriminate].
    intros [= -> ->]. exists [p]. split; reflexivity.
  - destruct (update (Scalar val) d) as [[p1 d1]|]; simpl; [|discriminate].
    intros Hrest. destruct (IH _ _ Hrest) as (ps & Hrun & Hlast).
    simpl in Hrun. rewrite Hrun. simpl. exists (p1 :: ps). split; [reflexivity|].
    rewrite last_cons, Hlast. reflexivity.
Qed.

Lemma detect_index_series (df : DataFrame) (probs : dict) (name : string)
    (d : BOCPDDetector E) :
  detect_index df probs (name, d) =
    match index_series df name with
    | [] => Ok probs
    | val :: x => update_each val x d ≫= fun '(p, _) => Ok (dict_set name p probs)
    end.
Proof.
  unfold detect_index, index_series.
  destruct (df_columns df !! name) as [col|]; reflexivity.
Qed.

Lemma index_result_final (df : DataFrame) (name : string) (o : option float) :
  index_result (E := E) df name o ->
  match index_series df name with
  | [] => o = None
  | x => exists ps self',
      run_sequence x (init default_hazard) = Ok (ps, self') /\ o = last ps
  end.
Proof.
  unfold index_result. destruct (index_series df name) as [|val x]; [trivial|].
  intros (p & self' & Hrun & ->).
  destruct (update_each_run _ _ _ _ _ Hrun) as (ps & Hseq & Hlast).
  exists ps, self'. split; [exact Hseq | symmetry; exact Hlast].
Qed.

Lemma detect_index_result (df : DataFrame) (probs probs' : dict) (name : string) :
  detect_index df probs (name, init default_hazard) = Ok probs' ->
  exists o, index_result (E := E) df name o /\
            probs' = from_option (fun p => dict_set name p probs) probs o.
Proof.
  rewrite detect_index_series. unfold index_result.
  destruct (index_series df name) as [|val x].
  - intros [= <-]. exists None. split; reflexivity.
  - destruct (update_each val x _) as [[p d]|]; simpl; [|discriminate].
    intros [= <-]. exists (Some p). split; [|reflexivity].
    exists p, d. split; reflexivity.
Qed.

Ltac detect_step o Ho :=
  match goal with
  | |- context [detect_index ?df ?acc ?item] =>
      let D := fresh "D" in
      destruct (detect_index df acc item) as [?|] eqn:D;
      cbn [mbind result_bind]; [|discriminate];
      apply detect_index_result in D; destruct D as (o & Ho & ->)
  end.

(** The dictionary after the loop over the four detectors. *)
Lemma detect_each_shape (df : DataFrame) (probs : dict) :
  detect_each df detectors [] = Ok probs ->
  exists o1 o2 o3 o4,
    index_result (E := E) df "capability" o1 /\
    index_result (E := E) df "attention" o2 /\
    index_result (E := E) df "market" o3 /\
    index_result (E := E) df "regulatory" o4 /\
    probs = entry "capability" o1 ++ entry "attention" o2 ++
            entry "market" o3 ++ entry "regulatory" o4.
Proof.
  unfold detectors. cbn [detect_each mbind result_bind].
  detect_step o1 H1. detect_step o2 H2. detect_step o3 H3. detect_step o4 H4.
  intros [= <-]. exists o1, o2, o3, o4. repeat (split; [assumption|]).
  destruct o1, o2, o3, o4; reflexivity.
Qed.


(** A completed run on a frame with rows appends one row to [alerts]. *)
Lemma detect_changepoints_returns (df : DataFrame) (db db' : database) d probs al :
  detect_changepoints (E := E) df db = (Ok (Results d probs al), db') ->
  last (df_date df) = Some d /\
  detect_each (E := E) df detectors [] = Ok probs /\
  al = existsb ge_threshold (dict_values probs) /\
  db' = insert_alert
          {| alert_date := d;
             capability_prob := dict_get "capability" 0 probs;
             attention_prob := dict_get "attention" 0 probs;
             market_prob := dict_get "market" 0 probs;
             regulatory_prob := dict_get "regulatory" 0 probs;
             alert := al |} db.
Proof.
  unfold detect_changepoints.
  destruct (df_empty df); [discriminate|].
  destruct (last (df_date df)) as [d0|]; [|discriminate].
  destruct (detect_each df detectors []) as [probs0|]; [|discriminate].
  intros [= -> -> <- <-]. repeat split.
Qed.

End JobFacts.

(** What [load_daily_indices] hands to the job. *)
Lemma select_daily_index_sorted (db : database) :
  Sorted date_le (select_daily_index db).
Proof.
  unfold select_daily_index.
  assert (Hs : Sorted date_le (merge_sort date_le (daily_index db))).
  { apply Sorted_merge_sort. intros a b. unfold date_le. lia. }
  revert Hs. generalize (merge_sort date_le (daily_index db)). generalize 180%nat.
  intros n l. revert n. induction l as [|a l IH]; intros [|n] Hs; simpl;
    try constructor.
  - apply IH. inversion Hs; assumption.
  - inversion Hs as [|? ? _ Hhd]; subst.
    destruct l as [|b l]; destruct n; simpl; constructor.
    inversion Hhd; assumption.
Qed.

Lemma select_daily_index_length (db : database) :
  (length (select_daily_index db) <= 180)%nat.
Proof. unfold select_daily_index. rewrite length_take. lia. Qed.

Lemma select_daily_index_rows (db : database) :
  select_daily_index db ⊆+ daily_index db.
Proof.
  unfold select_daily_index.
  etransitivity; [apply sublist_submseteq, sublist_take|].
  rewrite merge_sort_Permutation. reflexivity.
Qed.

Lemma load_daily_indices_series (db : database) (name : string) f :
  index_field name = Some f ->
  index_series (load_daily_indices db) name = drop_nan (f <$> select_daily_index db).
Proof.
  unfold index_field, index_series, load_daily_indices.
  destruct (select_daily_index db) as [|r rows] eqn:Hsel.
  - intros _. reflexivity.
  - cbn [df_columns].
    destruct (String.eqb_spec name "capability") as [->|?];
      [|destruct (String.eqb_spec name "attention") as [->|?];
        [|destruct (String.eqb_spec name "market") as [->|?];
          [|destruct (String.eqb_spec name "regulatory") as [->|?]]]];
      [..|discriminate];
      intros [= <-]; repeat (rewrite lookup_insert_ne by done);
      rewrite lookup_insert_eq; reflexivity.
Qed.

Lemma load_daily_indices_date (db : database) :
  df_date (load_daily_indices db) = row_date <$> select_daily_index db.
Proof.
  unfold load_daily_indices. destruct (select_daily_index db); reflexivity.
Qed.

Lemma dict_lookup_entries (o1 o2 o3 o4 : option float) :
  let probs := entry "capability" o1 ++ entry "attention" o2 ++
               entry "market" o3 ++ entry "regulatory" o4 in
  dict_lookup "capability" probs = o1 /\
  dict_lookup "attention" probs = o2 /\
  dict_lookup "market" probs = o3 /\
  dict_lookup "regulatory" probs = o4.
Proof. destruct o1, o2, o3, o4; repeat split. Qed.

Lemma index_field_names (name : string) f :
  index_field name = Some f ->
  (name = "capability" /\ f = capability) \/
  (name = "attention" /\ f = attention) \/
  (name = "market" /\ f = market) \/
  (name = "regulatory" /\ f = regulatory).
Proof.
  unfold index_field.
  destruct (String.eqb_spec name "capability"); [intros [= <-]; tauto|].
  destruct (String.eqb_spec name "attention"); [intros [= <-]; tauto|].
  destruct (String.eqb_spec name "market"); [intros [= <-]; tauto|].
  destruct (String.eqb_spec name "regulatory"); [intros [= <-]; tauto|].
  discriminate.
Qed.

Lemma dict_lookup_entries_inv (name : string) (o1 o2 o3 o4 : option float) p :
  dict_lookup name (entry "capability" o1 ++ entry "attention" o2 ++
                    entry "market" o3 ++ entry "regulatory" o4) = Some p ->
  (name = "capability"%string /\ o1 = Some p) \/
  (name = "attention"%string /\ o2 = Some p) \/
  (name = "market"%string /\ o3 = Some p) \/
  (name = "regulatory"%string /\ o4 = Some p).
Proof.
  destruct o1, o2, o3, o4; cbn;
    repeat match goal with
           | |- context [String.eqb name ?k] =>
               destruct (String.eqb_spec name k) as [->|?]; cbn
           end;
    intros [= <-] || discriminate; tauto.
Qed.

Lemma to_float32_0 : to_float32 0 = 0%float.
Proof. reflexivity. Qed.

Lemma stored_row_prob (name : string) (row : alert_row) :
  row_prob name (stored_alert row) = to_float32 <$> row_prob name row.
Proof.
  unfold row_prob. repeat (destruct (String.eqb name _); [reflexivity|]). reflexivity.
Qed.

Lemma select_daily_index_min (db : database) :
  length (select_daily_index db) = Nat.min 180 (length (daily_index db)).
Proof.
  unfold select_daily_index. rewrite length_take, merge_sort_Permutation. reflexivity.
Qed.

Lemma select_daily_index_all (db : database) :
  (length (daily_index db) <= 180)%nat -> select_daily_index db ≡ₚ daily_index db.
Proof.
  intros Hlen. unfold select_daily_index.
  rewrite take_ge by (rewrite merge_sort_Permutation; exact Hlen).
  apply merge_sort_Permutation.
Qed.

Section JobClaims.
Context {E : Type} `{!BOCD E}.



(** C5, as the code has it.  The job run on the loaded frame feeds, for
    each index, the values that are not NaN of the loaded rows, which
    are all the rows of [daily_index] when there are at most 180 and
    180 of them otherwise, in ascending date order, to a detector built
    with the default hazard, one value per call; the probability it
    keeps for the index is the one the last call returned, and an index
    with no such value gets none. *)
Theorem indices_fed_in_date_order (db db' : database) d probs al :
  detect_changepoints (E := E) (load_daily_indices db) db
    = (Ok (Results d probs al), db') ->
  exists rows,
    rows ⊆+ daily_index db /\
    length rows = Nat.min 180 (length (daily_index db)) /\
    ((length (daily_index db) <= 180)%nat -> rows ≡ₚ daily_index db) /\
    Sorted date_le rows /\
    last (row_date <$> rows) = Some d /\
    forall name f, index_field name = Some f ->
      match drop_nan (f <$> rows) with
      | [] => dict_lookup name probs = None
      | x => exists ps self',
          run_sequence (E := E) x (init default_hazard) = Ok (ps, self') /\
          dict_lookup name probs = last ps
      end.
Proof.
  intros Hrun. apply detect_changepoints_returns in Hrun.
  destruct Hrun as (Hlast & Heach & _ & _).
  apply detect_each_shape in Heach.
  destruct Heach as (o1 & o2 & o3 & o4 & H1 & H2 & H3 & H4 & ->).
  exists (select_daily_index db).
  split; [apply select_daily_index_rows|].
  split; [apply select_daily_index_min|].
  split; [apply select_daily_index_all|].
  split; [apply select_daily_index_sorted|].
  split; [rewrite <- load_daily_indices_date; exact Hlast|].
  destruct (dict_lookup_entries o1 o2 o3 o4) as (L1 & L2 & L3 & L4).
  intros name f Hf. rewrite <- (load_daily_indices_series db name f Hf).
  apply index_field_names in Hf.
  destruct Hf as [[-> _]|[[-> _]|[[-> _]|[-> _]]]];
    [rewrite L1; apply index_result_final in H1
    |rewrite L2; apply index_result_final in H2
    |rewrite L3; apply index_result_final in H3
    |rewrite L4; apply index_result_final in H4]; assumption.
Qed.

(** C10. On an empty frame the job returns [{}] and leaves the database
    as it was, and [send_alert] sends nothing for [{}]. *)
Theorem empty_frame_is_skipped (df : DataFrame) (db : database) (hook : option string) :
  df_empty df = true ->
  detect_changepoints (E := E) df db = (Ok EmptyDict, db) /\
  send_alert EmptyDict hook = None.
Proof.
  intros Hempty. unfold detect_changepoints. rewrite Hempty.
  split; reflexivity.
Qed.

End JobClaims.

(** ** The job on concrete tables *)

Lemma quiet_days_run :
  detect_changepoints (E := Stub.state)
    (load_daily_indices (no_alerts quiet_days)) (no_alerts quiet_days)
  = (Ok (Results 2 quiet_probs true), quiet_after).
Proof. vm_compute. reflexivity. Qed.



(** C5, as stated: of 181 stored rows without NaN, 180 values reach the
    detector of an index. *)
Lemma stored_rows_left_out :
  length (daily_index (no_alerts long_history)) = 181%nat /\
  drop_nan (capability <$> long_history) = capability <$> long_history /\
  length (index_series (load_daily_indices (no_alerts long_history)) "capability")
    = 180%nat.
Proof. repeat split; vm_compute; reflexivity. Qed.


Lemma quiet_probs_fit (name : string) (p : float) :
  dict_lookup name quiet_probs = Some p -> fits_float32 p = true.
Proof.
  unfold quiet_probs. simpl.
  repeat (destruct (String.eqb name _); [intros [= <-]; reflexivity|]).
  discriminate.
Qed.



Lemma indices_fed_in_date_order_witness :
  exists rows,
    rows ⊆+ daily_index (no_alerts quiet_days) /\
    length rows = Nat.min 180 (length (daily_index (no_alerts quiet_days))) /\
    ((length (daily_index (no_alerts quiet_days)) <= 180)%nat ->
     rows ≡ₚ daily_index (no_alerts quiet_days)) /\
    Sorted date_le rows /\
    last (row_date <$> rows) = Some 2 /\
    forall name f, index_field name = Some f ->
      match drop_nan (f <$> rows) with
      | [] => dict_lookup name quiet_probs = None
      | x => exists ps self',
          run_sequence (E := Stub.state) x (init default_hazard) = Ok (ps, self') /\
          dict_lookup name quiet_probs = last ps
      end.
Proof.
  exact (indices_fed_in_date_order (E := Stub.state) (no_alerts quiet_days)
           quiet_after 2 quiet_probs true quiet_days_run).
Defined.

Lemma empty_frame_is_skipped_witness :
  df_empty (load_daily_indices (no_alerts [])) = true /\
  detect_changepoints (E := Stub.state) (load_daily_indices (no_alerts [])) (no_alerts [])
    = (Ok EmptyDict, no_alerts []) /\
  send_alert EmptyDict (Some "https://hooks.slack.com/services/T0/B0/x"%string) = None.
Proof.
  split; [reflexivity|].
  apply (empty_frame_is_skipped (E := Stub.state)). reflexivity.
Defined.

(** * Further properties of the detector and the job *)

Section DetectorInvariants.
Context {E : Type} `{!BOCD E}.

Lemma update_history (x : input) (self self' : BOCPDDetector E) p :
  update x self = Ok (p, self') ->
  posterior_history self' = posterior_history self ++ [get_posterior (detector self')] /\
  head (get_posterior (detector self')) = Some p.
Proof.
  unfold update.
  destruct (feed _ (detector self)) as [e|]; simpl; [|discriminate].
  destruct (get_posterior e) as [|p0 rest] eqn:Hpost; simpl; [discriminate|].
  intros [= <- <-]. simpl. rewrite Hpost. split; reflexivity.
Qed.

(** The history grows by one posterior per call, and the first entry of
    each posterior recorded is the probability that call returned. *)
Theorem history_records_outputs (xs : list float) (self self' : BOCPDDetector E) ps :
  run_sequence xs self = Ok (ps, self') ->
  exists hs,
    posterior_history self' = posterior_history self ++ hs /\
    Forall2 (fun p h => head h = Some p) ps hs /\
    length ps = length xs.
Proof.
  revert self ps. induction xs as [|x xs IH]; intros self ps; simpl.
  - intros [= <- <-]. exists []. rewrite app_nil_r. repeat split. constructor.
  - destruct (update (Scalar x) self) as [[p d1]|] eqn:Hup; simpl; [|discriminate].
    destruct (run_sequence xs d1) as [[ps1 d2]|] eqn:Hrun; simpl; [|discriminate].
    intros [= <- <-].
    destruct (update_history _ _ _ _ Hup) as (Hhist & Hhead).
    destruct (IH _ _ Hrun) as (hs & Hhs & Hall & Hlen).
    exists (get_posterior (detector d1) :: hs). split; [|split].
    + rewrite Hhs, Hhist, <- app_assoc. reflexivity.
    + constructor; assumption.
    + simpl. rewrite Hlen. reflexivity.
Qed.

End DetectorInvariants.

Section JobInvariants.
Context {E : Type} `{!BOCD E}.

Lemma index_result_Some (df : DataFrame) (name : string) (o : option float) :
  index_result (E := E) df name o -> (is_Some o <-> index_series df name <> []).
Proof.
  unfold index_result. destruct (index_series df name) as [|val x].
  - intros ->. split; [intros [? [=]] | congruence].
  - intros (p & d & _ & ->). split; [discriminate | eauto].
Qed.

(** When the job completes, the dictionary of probabilities has an entry
    for exactly those of the four indices whose column holds a value
    that is not NaN. *)
Theorem reported_indices (df : DataFrame) (db db' : database) d probs al :
  detect_changepoints (E := E) df db = (Ok (Results d probs al), db') ->
  forall name,
    is_Some (dict_lookup name probs) <->
    name ∈ index_names /\ index_series df name <> [].
Proof.
  intros Hrun. apply detect_changepoints_returns in Hrun.
  destruct Hrun as (_ & Heach & _ & _).
  apply detect_each_shape in Heach.
  destruct Heach as (o1 & o2 & o3 & o4 & H1 & H2 & H3 & H4 & ->).
  apply index_result_Some in H1, H2, H3, H4.
  destruct (dict_lookup_entries o1 o2 o3 o4) as (L1 & L2 & L3 & L4).
  intros name. split.
  - intros [p Hp]. apply dict_lookup_entries_inv in Hp.
    unfold index_names.
    destruct Hp as [[-> Ho]|[[-> Ho]|[[-> Ho]|[-> Ho]]]];
      (split; [rewrite !elem_of_cons; tauto|]);
      [apply (proj1 H1) | apply (proj1 H2) | apply (proj1 H3) | apply (proj1 H4)];
      rewrite Ho; eauto.
  - intros [Hname Hseries]. unfold index_names in Hname.
    repeat (apply elem_of_cons in Hname; destruct Hname as [->|Hname]);
      [rewrite L1; apply (proj2 H1) | rewrite L2; apply (proj2 H2)
      |rewrite L3; apply (proj2 H3) | rewrite L4; apply (proj2 H4)
      |apply elem_of_nil in Hname; destruct Hname]; assumption.
Qed.


(** The [INSERT] is not keyed by date: running the job again on the same
    frame returns the same result and adds the same row a second time. *)
Theorem rerun_duplicates_row (df : DataFrame) (db db1 : database) d probs al :
  detect_changepoints (E := E) df db = (Ok (Results d probs al), db1) ->
  exists row db2,
    detect_changepoints (E := E) df db1 = (Ok (Results d probs al), db2) /\
    alert_date row = d /\
    alerts db2 = Some (default [] (alerts db) ++ [row; row]).
Proof.
  intros Hrun. pose proof Hrun as Hret.
  apply detect_changepoints_returns in Hret.
  destruct Hret as (Hlast & Heach & -> & ->).
  revert Hrun. unfold detect_changepoints.
  destruct (df_empty df); [discriminate|].
  rewrite Hlast, Heach. intros _.
  exists (stored_alert
            {| alert_date := d;
               capability_prob := dict_get "capability" 0 probs;
               attention_prob := dict_get "attention" 0 probs;
               market_prob := dict_get "market" 0 probs;
               regulatory_prob := dict_get "regulatory" 0 probs;
               alert := existsb ge_threshold (dict_values probs) |}).
  eexists. split; [reflexivity|].
  split; [reflexivity|].
  simpl. rewrite <- (app_assoc _ [_] [_]). reflexivity.
Qed.

End JobInvariants.

(** ** What the job reads *)

Lemma date_le_trans : Transitive date_le.
Proof. intros a b c. unfold date_le. lia. Qed.

Lemma date_le_total : Total date_le.
Proof. intros a b. unfold date_le. lia. Qed.

(** [load_daily_indices] keeps the rows with the earliest dates: the
    table is the loaded rows together with the rows left out, no row
    left out is dated before a loaded one, and rows are left out only
    when the table holds more than 180. *)
Theorem load_keeps_earliest_rows (db : database) :
  exists dropped,
    select_daily_index db ++ dropped ≡ₚ daily_index db /\
    (forall r r', r ∈ select_daily_index db -> r' ∈ dropped ->
                  row_date r ≤ row_date r') /\
    length dropped = (length (daily_index db) - 180)%nat.
Proof.
  exists (drop 180 (merge_sort date_le (daily_index db))).
  unfold select_daily_index. split; [|split].
  - rewrite take_drop. apply merge_sort_Permutation.
  - intros r r' Hr Hr'.
    pose proof (@StronglySorted_merge_sort _ date_le _ date_le_trans date_le_total
                  (daily_index db)) as Hs.
    rewrite <- (take_drop 180) in Hs.
    exact (StronglySorted_app_1_elem_of _ _ _ _ _ Hs Hr Hr').
  - rewrite length_drop, merge_sort_Permutation. reflexivity.
Qed.

(** The frame handed to the job: at most 180 dates; no rows exactly
    when the table has none; otherwise the four index columns and no
    other, each as long as the date column. *)
Theorem loaded_frame_shape (db : database) :
  (length (df_date (load_daily_indices db)) <= 180)%nat /\
  (df_empty (load_daily_indices db) = true <-> daily_index db = []) /\
  (forall name col, df_columns (load_daily_indices db) !! name = Some col ->
     name ∈ index_names /\
     length col = length (df_date (load_daily_indices db))) /\
  (df_empty (load_daily_indices db) = false ->
   forall name, name ∈ index_names ->
     is_Some (df_columns (load_daily_indices db) !! name)).
Proof.
  rewrite load_daily_indices_date. split; [|split; [|split]].
  - rewrite length_fmap. apply select_daily_index_length.
  - unfold df_empty. rewrite load_daily_indices_date, bool_decide_eq_true.
    unfold select_daily_index. split.
    + intros Hnil. apply fmap_nil_inv in Hnil.
      apply Permutation_nil_r. rewrite <- (merge_sort_Permutation date_le).
      destruct (merge_sort date_le (daily_index db)); [reflexivity|discriminate].
    + intros ->. reflexivity.
  - unfold load_daily_indices.
    destruct (select_daily_index db) as [|r rows]; cbn [df_columns].
    + intros name col. rewrite lookup_empty. discriminate.
    + intros name col Hcol. unfold index_names. rewrite !elem_of_cons.
      destruct (decide (name = "capability"%string)) as [->|];
        [|destruct (decide (name = "attention"%string)) as [->|];
          [|destruct (decide (name = "market"%string)) as [->|];
            [|destruct (decide (name = "regulatory"%string)) as [->|]]]];
        repeat (rewrite lookup_insert_ne in Hcol by done);
        [rewrite lookup_insert_eq in Hcol..|rewrite lookup_empty in Hcol; discriminate];
        injection Hcol as <-;
        (split; [auto 10|]);
        change (list_fmap index_row float ?f rows) with (f <$> rows);
        simpl; rewrite !length_fmap; reflexivity.
  - unfold df_empty, load_daily_indices.
    destruct (select_daily_index db) as [|r rows]; cbn [df_date df_columns].
    + rewrite bool_decide_eq_false. congruence.
    + intros _ name Hname. unfold index_names in Hname.
      repeat (apply elem_of_cons in Hname; destruct Hname as [->|Hname]);
        [..|apply elem_of_nil in Hname; destruct Hname];
        repeat (rewrite lookup_insert_ne by done);
        rewrite lookup_insert_eq; eauto.
Qed.

Section JobOnTable.
Context {E : Type} `{!BOCD E}.

(** The date of the result, which is also the date of the row the run
    appends to [alerts], is the date of a stored row, and no loaded row
    is dated after it. *)
Theorem alert_date_is_latest_loaded (db db' : database) d probs al :
  detect_changepoints (E := E) (load_daily_indices db) db
    = (Ok (Results d probs al), db') ->
  (exists row, alerts db' = Some (default [] (alerts db) ++ [row]) /\
               alert_date row = d) /\
  (exists r, r ∈ daily_index db /\ row_date r = d) /\
  forall r, r ∈ select_daily_index db -> row_date r ≤ d.
Proof.
  intros Hrun. apply detect_changepoints_returns in Hrun.
  destruct Hrun as (Hlast & _ & _ & ->).
  split; [eexists; split; reflexivity|].
  rewrite load_daily_indices_date, fmap_last in Hlast.
  destruct (last (select_daily_index db)) as [r0|] eqn:Hr0; [|discriminate].
  injection Hlast as <-.
  apply last_Some in Hr0. destruct Hr0 as (front & Hsel).
  split.
  - exists r0. split; [|reflexivity].
    assert (Hin : r0 ∈ select_daily_index db)
      by (rewrite Hsel, elem_of_app, list_elem_of_singleton; auto).
    pose proof (select_daily_index_rows db) as Hsub.
    eapply elem_of_submseteq; eassumption.
  - intros r Hr.
    pose proof (Sorted_StronglySorted date_le (Transitive0 := date_le_trans) _
                  (select_daily_index_sorted db)) as Hs.
    rewrite Hsel in Hs, Hr. apply elem_of_app in Hr. destruct Hr as [Hr|Hr].
    + apply (StronglySorted_app_1_elem_of _ _ _ _ _ Hs Hr).
      apply list_elem_of_singleton. reflexivity.
    + apply list_elem_of_singleton in Hr. subst r. reflexivity.
Qed.



End JobOnTable.

(** ** [detect_job] *)

Lemma entries_over_threshold (o1 o2 o3 o4 : option float) :
  existsb ge_threshold
    (dict_values (entry "capability" o1 ++ entry "attention" o2 ++
                  entry "market" o3 ++ entry "regulatory" o4)) = true ->
  (exists p, o1 = Some p /\ ge_threshold p = true) \/
  (exists p, o2 = Some p /\ ge_threshold p = true) \/
  (exists p, o3 = Some p /\ ge_threshold p = true) \/
  (exists p, o4 = Some p /\ ge_threshold p = true).
Proof.
  destruct o1, o2, o3, o4; simpl; intros H;
    repeat match type of H with
           | (_ || _) = true => apply orb_true_iff in H; destruct H as [H|H]
           end;
    try discriminate; eauto 10.
Qed.

Section JobMessage.
Context {E : Type} `{!BOCD E}.

(** A Slack message leaves [detect_job] only when the webhook is set and
    the run has stored a row with the alert flag, for the date in the
    message, and some index has a probability of at least 0.5 in the
    message, kept in the row as rounded to its [FLOAT] column. *)
Theorem message_only_on_alert (hook : option string) (db db' : database)
    channel d probs :
  detect_job (E := E) hook db = (Ok (Some (chat_postMessage channel d probs)), db') ->
  (forall name p, dict_lookup name probs = Some p -> fits_float32 p = true) ->
  truthy hook = true /\
  channel = "#alerts"%string /\
  exists row name p,
    alerts db' = Some (default [] (alerts db) ++ [row]) /\
    alert_date row = d /\
    alert row = true /\
    dict_lookup name probs = Some p /\
    ge_threshold p = true /\
    row_prob name row = Some (to_float32 p).
Proof.
  unfold detect_job.
  destruct (detect_changepoints (load_daily_indices db) db) as [[r|e] db1] eqn:Hrun;
    [|discriminate].
  intros [= Hsend <-] _. unfold send_alert in Hsend.
  destruct r as [|d0 probs0 al]; [discriminate|]. simpl in Hsend.
  destruct al; [|discriminate].
  destruct (truthy hook); [|discriminate]. simpl in Hsend.
  injection Hsend as <- <- <-. split; [reflexivity|]. split; [reflexivity|].
  apply detect_changepoints_returns in Hrun.
  destruct Hrun as (_ & Heach & Hal & ->).
  apply detect_each_shape in Heach.
  destruct Heach as (o1 & o2 & o3 & o4 & _ & _ & _ & _ & ->).
  destruct (dict_lookup_entries o1 o2 o3 o4) as (L1 & L2 & L3 & L4).
  symmetry in Hal. apply entries_over_threshold in Hal.
  eexists.
  destruct Hal as [(p & Ho & Hp)|[(p & Ho & Hp)|[(p & Ho & Hp)|(p & Ho & Hp)]]];
    [exists "capability"%string, p | exists "attention"%string, p
    |exists "market"%string, p | exists "regulatory"%string, p];
    (split; [reflexivity|]); (split; [reflexivity|]); (split; [reflexivity|]);
    rewrite stored_row_prob;
    unfold row_prob, dict_get; cbn [String.eqb Ascii.eqb Bool.eqb
      capability_prob attention_prob market_prob regulatory_prob];
    rewrite ?L1, ?L2, ?L3, ?L4, Ho; repeat split; assumption.
Qed.

End JobMessage.

(** ** [plot_posterior] *)

Lemma vstack_Some (arrays : list (list float)) :
  is_Some (vstack arrays) <->
  arrays <> [] /\ forall a b, a ∈ arrays -> b ∈ arrays -> length a = length b.
Proof.
  unfold vstack. destruct arrays as [|a rest].
  - split; [intros [? [=]] | intros [[] _]; reflexivity].
  - destruct (forallb _ rest) eqn:Hall.
    + split; [|eauto]. intros _. split; [discriminate|].
      rewrite forallb_forall in Hall.
      assert (Hlen : forall b, b ∈ a :: rest -> length b = length a).
      { intros b Hb. apply elem_of_cons in Hb. destruct Hb as [->|Hb]; [reflexivity|].
        apply Nat.eqb_eq, Hall, list_elem_of_In, Hb. }
      intros b c Hb Hc. rewrite (Hlen b Hb), (Hlen c Hc). reflexivity.
    + split; [intros [? [=]]|]. intros [_ Hlen]. exfalso.
      apply not_true_iff_false in Hall. apply Hall.
      apply forallb_forall. intros b Hb. apply Nat.eqb_eq.
      apply Hlen; [right; apply list_elem_of_In, Hb | left].
Qed.

(** [plot_posterior] draws nothing for a detector that was never
    updated, and draws a figure exactly when the recorded posteriors all
    have one length; otherwise stacking them raises. *)
Theorem plot_posterior_outcome {E : Type} (d : BOCPDDetector E)
    (dates : list date) (values : list float) (t : string) :
  (plot_posterior d dates values t = NoFigure <-> posterior_history d = []) /\
  ((exists fig, plot_posterior d dates values t = Plotted fig) <->
   posterior_history d <> [] /\
   forall a b, a ∈ posterior_history d -> b ∈ posterior_history d ->
               length a = length b).
Proof.
  unfold plot_posterior. rewrite <- vstack_Some.
  destruct (posterior_history d) as [|a rest] eqn:Hhist.
  - split; [tauto|]. split; [intros [? [=]] | intros [? [=]]].
  - destruct (vstack (a :: rest)) as [m|].
    + split; [split; discriminate|]. split; eauto.
    + split; [split; discriminate|]. split; [intros [? [=]] | intros [? [=]]].
Qed.

Section PlotGrowing.
Context {E : Type} `{!BOCD E}.

Lemma update_scalar_step (x : float) (self self' : BOCPDDetector E) p :
  update (Scalar x) self = Ok (p, self') ->
  bocd_update (detector self) x = Ok (detector self').
Proof.
  unfold update. simpl.
  destruct (bocd_update (detector self) x) as [e|]; simpl; [|discriminate].
  destruct (get_posterior e); simpl; [discriminate|].
  intros [= _ <-]. reflexivity.
Qed.

Lemma run_sequence_extends (xs : list float) (self self' : BOCPDDetector E) ps :
  run_sequence xs self = Ok (ps, self') ->
  exists hs, posterior_history self' = posterior_history self ++ hs.
Proof.
  revert self ps. induction xs as [|x xs IH]; intros self ps; simpl.
  - intros [= _ <-]. exists []. rewrite app_nil_r. reflexivity.
  - destruct (update (Scalar x) self) as [[p d1]|] eqn:Hup; simpl; [|discriminate].
    destruct (run_sequence xs d1) as [[ps1 d2]|] eqn:Hrun; simpl; [|discriminate].
    intros [= _ <-].
    destruct (update_history _ _ _ _ Hup) as (Hhist & _).
    destruct (IH _ _ Hrun) as (hs & Hhs).
    eexists. rewrite Hhs, Hhist, <- app_assoc. reflexivity.
Qed.

(** With an engine whose posterior gains one entry per observation, as
    a distribution over run lengths 0..t does, a detector that was fed
    two or more observations, one per call, cannot be plotted:
    [plot_posterior] raises. *)
Theorem growing_posterior_cannot_be_plotted (hz : Z) (xs : list float)
    (d : BOCPDDetector E) ps (dates : list date) (values : list float) (t : string) :
  (forall e v e', bocd_update (E := E) e v = Ok e' ->
                  length (get_posterior e') = S (length (get_posterior e))) ->
  (2 <= length xs)%nat ->
  run_sequence xs (init hz) = Ok (ps, d) ->
  plot_posterior d dates values t = PlotValueError.
Proof.
  intros Hgrow Hlen Hrun.
  destruct xs as [|x1 [|x2 xs]]; simpl in Hlen; try lia.
  simpl in Hrun.
  destruct (update (Scalar x1) (init hz)) as [[p1 d1]|] eqn:U1; simpl in Hrun; [|discriminate].
  destruct (update (Scalar x2) d1) as [[p2 d2]|] eqn:U2; simpl in Hrun; [|discriminate].
  destruct (run_sequence xs d2) as [[ps' d3]|] eqn:Hrest; simpl in Hrun; [|discriminate].
  injection Hrun as _ <-.
  destruct (update_history _ _ _ _ U1) as (H1 & _).
  destruct (update_history _ _ _ _ U2) as (H2 & _).
  destruct (run_sequence_extends _ _ _ _ Hrest) as (hs & H3).
  pose proof (Hgrow _ _ _ (update_scalar_step _ _ _ _ U2)) as Hg.
  unfold plot_posterior. rewrite H3, H2, H1. simpl.
  rewrite Hg. rewrite (proj2 (Nat.eqb_neq _ _)) by lia. reflexivity.
Qed.

End PlotGrowing.

Lemma stride_lookup {A : Type} (step : nat) (l : list A) :
  (1 <= step)%nat ->
  forall skip i, stride step skip l !! i = l !! (skip + i * step)%nat.
Proof.
  intros Hstep. induction l as [|x l IH]; intros skip i.
  - reflexivity.
  - destruct skip as [|skip]; simpl.
    + destruct i as [|i]; [reflexivity|].
      simpl. rewrite IH.
      replace (step + i * step)%nat with (S (step - 1 + i * step)) by lia.
      reflexivity.
    + rewrite IH. reflexivity.
Qed.

Lemma ceil_div_lt (n step i : nat) :
  (1 <= step)%nat -> (i < (n + step - 1) / step)%nat <-> (i * step < n)%nat.
Proof.
  intros Hstep.
  pose proof (Nat.div_mod_eq (n + step - 1) step) as Hdm.
  pose proof (Nat.mod_upper_bound (n + step - 1) step ltac:(lia)) as Hmod.
  split; intros H; nia.
Qed.

Lemma arange_lookup (n step i k : nat) :
  (1 <= step)%nat ->
  arange n step !! i = Some k <-> k = (i * step)%nat /\ (k < n)%nat.
Proof.
  intros Hstep. unfold arange. rewrite list_lookup_fmap.
  destruct (decide (i < (n + step - 1) / step)%nat) as [Hlt|Hge].
  - rewrite lookup_seq_lt by exact Hlt. simpl.
    apply ceil_div_lt in Hlt; [|exact Hstep].
    split; [intros [= <-]; auto | intros [-> _]; reflexivity].
  - rewrite lookup_seq_ge by lia. simpl.
    split; [discriminate|]. intros [-> Hk].
    apply ceil_div_lt in Hk; [contradiction|exact Hstep].
Qed.

(** In a figure, tick labels and tick positions come in equal number,
    at most 19, and each label is the date at the position of its
    tick. *)
Theorem tick_labels_line_up {E : Type} (d : BOCPDDetector E)
    (dates : list date) (values : list float) (t : string) fig :
  plot_posterior d dates values t = Plotted fig ->
  length (xticklabels fig) = length (xticks fig) /\
  (length (xticks fig) <= 19)%nat /\
  forall i k, xticks fig !! i = Some k ->
              (k < length dates)%nat /\ xticklabels fig !! i = dates !! k.
Proof.
  unfold plot_posterior.
  destruct (posterior_history d) as [|a rest]; [discriminate|].
  destruct (vstack (a :: rest)); [|discriminate].
  intros [= <-]. cbv beta iota zeta delta [xticks xticklabels].
  change (fst (Nat.divmod (length dates) 9 0 9)) with (length dates / 10)%nat.
  set (step := Nat.max 1 (length dates / 10)).
  assert (Hstep : (1 <= step)%nat) by (unfold step; lia).
  assert (Hlab : forall i, (i < length (stride step 0 dates))%nat <->
                           (i * step < length dates)%nat).
  { intros i. rewrite <- !lookup_lt_is_Some, stride_lookup by exact Hstep.
    reflexivity. }
  assert (Htick : length (arange (length dates) step)
                  = ((length dates + step - 1) / step)%nat).
  { unfold arange. rewrite length_fmap, length_seq. reflexivity. }
  split; [|split].
  - rewrite Htick.
    destruct (Nat.lt_trichotomy (length (stride step 0 dates))
                ((length dates + step - 1) / step)) as [Hlt|[Heq|Hgt]];
      [|exact Heq|].
    + apply ceil_div_lt in Hlt; [|exact Hstep]. apply Hlab in Hlt. lia.
    + apply Hlab in Hgt. apply ceil_div_lt in Hgt; [lia|exact Hstep].
  - rewrite Htick.
    enough ((length dates + step - 1) / step < 20)%nat by lia.
    apply Nat.Div0.div_lt_upper_bound.
    pose proof (Nat.div_mod_eq (length dates) 10) as Hdm.
    pose proof (Nat.mod_upper_bound (length dates) 10 ltac:(lia)) as Hmod.
    unfold step. destruct (length dates / 10)%nat; simpl; lia.
  - intros i k Hk. apply arange_lookup in Hk; [|exact Hstep].
    destruct Hk as [-> Hk]. split; [exact Hk|].
    rewrite stride_lookup by exact Hstep. reflexivity.
Qed.

(** ** The further properties on concrete inputs *)

Lemma stub_posterior_grows (e : Stub.state) (v : float) e' :
  bocd_update e v = Ok e' ->
  length (get_posterior e') = S (length (get_posterior e)).
Proof.
  simpl. unfold Stub.step. destruct (Stub.is_infinite v); [discriminate|].
  intros [= <-]. unfold Stub.posterior. simpl.
  destruct (Stub.seen e); simpl; rewrite ?length_replicate; reflexivity.
Qed.


Lemma quiet_job_run :
  detect_job (E := Stub.state) (Some "https://hooks.slack.com/services/T0/B0/x"%string)
    (no_alerts quiet_days)
  = (Ok (Some (chat_postMessage "#alerts" 2 quiet_probs)), quiet_after).
Proof. vm_compute. reflexivity. Qed.

Lemma history_records_outputs_witness :
  exists hs,
    posterior_history fed_twice = posterior_history (init (E := Stub.state) 250) ++ hs /\
    Forall2 (fun p h => head h = Some p) [0.5; 0.75]%float hs /\
    length [0.5; 0.75]%float = length [1; 4]%float.
Proof.
  exact (history_records_outputs [1; 4]%float (init 250) fed_twice
           [0.5; 0.75]%float eq_refl).
Defined.

Lemma detectors_do_not_interfere_witness :
  deref (construct 100 (construct 250 (mkHeap (E := Stub.state) [] [])).2).1 fed_heap
  = Some (init 100).
Proof.
  exact (detectors_do_not_interfere 250 100 [1; 4]%float (mkHeap [] []) fed_heap
           [0.5; 0.75]%float eq_refl).
Defined.

Lemma reported_indices_witness :
  (is_Some (dict_lookup "market" quiet_probs) <->
   "market"%string ∈ index_names /\
   index_series (load_daily_indices (no_alerts quiet_days)) "market" <> []) /\
  (is_Some (dict_lookup "capability" quiet_probs) <->
   "capability"%string ∈ index_names /\
   index_series (load_daily_indices (no_alerts quiet_days)) "capability" <> []).
Proof.
  split.
  - exact (reported_indices (E := Stub.state) _ _ quiet_after 2 quiet_probs true
             quiet_days_run "market"%string).
  - exact (reported_indices (E := Stub.state) _ _ quiet_after 2 quiet_probs true
             quiet_days_run "capability"%string).
Defined.

Lemma rerun_duplicates_row_witness :
  exists row db2,
    detect_changepoints (E := Stub.state)
      (load_daily_indices (no_alerts quiet_days)) quiet_after
    = (Ok (Results 2 quiet_probs true), db2) /\
    alert_date row = 2 /\
    alerts db2 = Some (default [] (alerts (no_alerts quiet_days)) ++ [row; row]).
Proof.
  exact (rerun_duplicates_row (E := Stub.state) _ _ quiet_after 2 quiet_probs true
           quiet_days_run).
Defined.

Lemma alert_date_is_latest_loaded_witness :
  (exists row, alerts quiet_after
               = Some (default [] (alerts (no_alerts quiet_days)) ++ [row]) /\
               alert_date row = 2) /\
  (exists r, r ∈ daily_index (no_alerts quiet_days) /\ row_date r = 2) /\
  forall r, r ∈ select_daily_index (no_alerts quiet_days) -> row_date r ≤ 2.
Proof.
  exact (alert_date_is_latest_loaded (E := Stub.state) (no_alerts quiet_days)
           quiet_after 2 quiet_probs true quiet_days_run).
Defined.


Lemma message_only_on_alert_witness :
  truthy (Some "https://hooks.slack.com/services/T0/B0/x"%string) = true /\
  "#alerts"%string = "#alerts"%string /\
  exists row name p,
    alerts quiet_after = Some (default [] (alerts (no_alerts quiet_days)) ++ [row]) /\
    alert_date row = 2 /\
    alert row = true /\
    dict_lookup name quiet_probs = Some p /\
    ge_threshold p = true /\
    row_prob name row = Some (to_float32 p).
Proof.
  exact (message_only_on_alert (E := Stub.state) _ _ _ _ _ _ quiet_job_run
           quiet_probs_fit).
Defined.

Lemma growing_posterior_cannot_be_plotted_witness :
  plot_posterior fed_twice some_days [1; 4]%float "market" = PlotValueError.
Proof.
  apply (growing_posterior_cannot_be_plotted (E := Stub.state) 250 [1; 4]%float
           fed_twice [0.5; 0.75]%float).
  - exact stub_posterior_grows.
  - simpl. lia.
  - reflexivity.
Defined.

Lemma tick_labels_line_up_witness :
  length (xticklabels fed_once_figure) = length (xticks fed_once_figure) /\
  (length (xticks fed_once_figure) <= 19)%nat /\
  forall i k, xticks fed_once_figure !! i = Some k ->
              (k < length some_days)%nat /\
              xticklabels fed_once_figure !! i = some_days !! k.
Proof.
  exact (tick_labels_line_up fed_once some_days [1%float] "market" fed_once_figure
           eq_refl).
Defined.

(** * [features/indices.py] *)

Lemma index_columns_lookup (rows : list index_row) (name : string) f :
  index_field name = Some f ->
  index_columns rows !! name = Some (f <$> rows).
Proof.
  intros Hf. apply index_field_names in Hf. unfold index_columns.
  destruct Hf as [[-> ->]|[[-> ->]|[[-> ->]|[-> ->]]]];
    repeat (rewrite lookup_insert_ne by done); apply lookup_insert_eq.
Qed.

Lemma select_rows_last {A : Type} (l : list A) (x : A) (n : nat) :
  length l = n -> select_rows (replicate n false ++ [true]) (l ++ [x]) = [x].
Proof.
  revert n. induction l as [|y l IH]; intros n <-; simpl.
  - reflexivity.
  - apply IH. reflexivity.
Qed.

Lemma filter_absent (name : string) (columns : list string) :
  name ∉ columns -> filter (fun c => c = name) columns = [].
Proof.
  induction columns as [|c columns IH]; intros Hnot; [reflexivity|].
  apply not_elem_of_cons in Hnot. destruct Hnot as [Hne Hnot].
  rewrite filter_cons_False by congruence. apply IH, Hnot.
Qed.

Section IndicesFacts.
Context `{!Pandas}.

Lemma length_zscores (values : list float) : length (zscores values) = length values.
Proof. unfold zscores. destruct (PrimFloat.ltb _ _); apply length_fmap. Qed.

Lemma zscores_snoc (history : list float) (score : float) :
  exists front,
    zscores (history ++ [score]) = front ++ [zscore_of_day history score] /\
    length front = length history.
Proof.
  unfold zscores, zscore_of_day.
  destruct (PrimFloat.ltb 0 (series_std (history ++ [score])));
    rewrite fmap_app; eexists; (split; [reflexivity|apply length_fmap]).
Qed.

Lemma normalize_column_other (df : Frame) (column : string) :
  column <> "date"%string ->
  exists res,
    normalize_column df column = Ok res /\
    frame_date res = frame_date df /\
    forall name,
      frame_columns res !! name =
        if decide (column = name) then zscores <$> frame_columns df !! name
        else frame_columns df !! name.
Proof.
  intros Hne. unfold normalize_column.
  destruct (String.eqb_spec column "date") as [->|_]; [contradiction|].
  destruct (frame_columns df !! column) as [values|] eqn:Hcol;
    eexists; (split; [reflexivity|]); (split; [reflexivity|]);
    intros name; cbn [frame_columns].
  - destruct (decide (column = name)) as [<-|Hn].
    + rewrite lookup_insert_eq, Hcol. reflexivity.
    + apply lookup_insert_ne. exact Hn.
  - destruct (decide (column = name)) as [<-|Hn]; [rewrite Hcol|]; reflexivity.
Qed.

(** Without the [date] column among the names, every column is
    normalised once for each time its name is listed. *)
Lemma normalize_data_columns (df : Frame) (columns : list string) :
  "date"%string ∉ columns ->
  exists res,
    normalize_data df columns = Ok res /\
    frame_date res = frame_date df /\
    forall name,
      frame_columns res !! name =
        Nat.iter (length (filter (fun c => c = name) columns)) zscores
          <$> frame_columns df !! name.
Proof.
  revert df. induction columns as [|c columns IH]; intros df Hnot;
    cbn [normalize_data].
  - exists df. repeat split. intros name. simpl.
    destruct (frame_columns df !! name); reflexivity.
  - apply not_elem_of_cons in Hnot. destruct Hnot as [Hc Hnot].
    destruct (normalize_column_other df c) as (res1 & -> & Hdate1 & Hcols1);
      [congruence|].
    cbn [mbind result_bind]. destruct (IH res1 Hnot) as (res & -> & Hdate & Hcols).
    exists res. split; [reflexivity|]. split; [congruence|].
    intros name. rewrite Hcols, Hcols1, filter_cons.
    destruct (decide (c = name)) as [->|Hn]; [|reflexivity].
    destruct (frame_columns df !! name) as [values|]; [|reflexivity].
    simpl. rewrite <- Nat.iter_succ_r. reflexivity.
Qed.

Lemma normalize_data_date (df : Frame) (columns : list string) :
  frame_date df <> [] ->
  "date"%string ∈ columns ->
  normalize_data df columns = Raise TypeError.
Proof.
  revert df. induction columns as [|c columns IH]; intros df Hrows Hin.
  - inversion Hin.
  - simpl. destruct (decide (c = "date"%string)) as [->|Hc].
    + unfold normalize_column. simpl.
      destruct (frame_date df); [contradiction|reflexivity].
    + destruct (normalize_column_other df c Hc) as (res1 & -> & Hdate1 & _).
      cbn. apply IH; [congruence|].
      apply elem_of_cons in Hin. destruct Hin as [Heq|Hin]; [congruence|exact Hin].
Qed.

Lemma length_iter_zscores (n : nat) (values : list float) :
  length (Nat.iter n zscores values) = length values.
Proof.
  induction n as [|n IH]; simpl; [reflexivity|].
  rewrite length_zscores. exact IH.
Qed.

(** When [date] is not among the names, [normalize_data] returns a
    frame of the same shape: the same date column, the same column
    names, every column as long as before, and the columns that are not
    listed as they were.  When [date] is among them and the frame has
    rows, it raises. *)
Theorem normalize_data_shape (df : Frame) (columns : list string) :
  ("date"%string ∉ columns ->
   exists res,
     normalize_data df columns = Ok res /\
     frame_date res = frame_date df /\
     forall name,
       match frame_columns df !! name with
       | None => frame_columns res !! name = None
       | Some values =>
           exists values',
             frame_columns res !! name = Some values' /\
             length values' = length values /\
             (name ∉ columns -> values' = values)
       end) /\
  (frame_date df <> [] -> "date"%string ∈ columns ->
   normalize_data df columns = Raise TypeError).
Proof.
  split; [|apply normalize_data_date].
  intros Hnot. destruct (normalize_data_columns df columns Hnot) as (res & Hres & Hdate & Hcols).
  exists res. split; [exact Hres|]. split; [exact Hdate|].
  intros name. rewrite Hcols.
  destruct (frame_columns df !! name) as [values|]; [|reflexivity].
  eexists. split; [reflexivity|]. split; [apply length_iter_zscores|].
  intros Habsent. rewrite (filter_absent _ _ Habsent). reflexivity.
Qed.

(** For names without repetition and without [date], a listed column
    becomes its z-scores, [(v - mean) / std] at every position, or all
    zeros when [std > 0] does not hold (a zero or NaN deviation). *)
Theorem normalize_data_zscore (df : Frame) (columns : list string)
    (name : string) (values : list float) :
  NoDup columns ->
  "date"%string ∉ columns ->
  name ∈ columns ->
  frame_columns df !! name = Some values ->
  exists res values',
    normalize_data df columns = Ok res /\
    frame_columns res !! name = Some values' /\
    (PrimFloat.ltb 0 (series_std values) = true ->
     values' = (fun v => (v - series_mean values) / series_std values)%float
                 <$> values) /\
    (PrimFloat.ltb 0 (series_std values) = false ->
     values' = replicate (length values) 0%float).
Proof.
  intros Hnodup Hnot Hin Hcol.
  destruct (normalize_data_columns df columns Hnot) as (res & Hres & _ & Hcols).
  exists res. rewrite Hcols, Hcol.
  assert (Hone : length (filter (fun c => c = name) columns) = 1%nat).
  { clear Hcol Hres Hcols Hnot.
    induction Hnodup as [|c columns Hc _ IH]; [inversion Hin|].
    rewrite filter_cons. apply elem_of_cons in Hin.
    destruct (decide (c = name)) as [->|Hne].
    - simpl. rewrite (filter_absent _ _ Hc). reflexivity.
    - destruct Hin as [->|Hin]; [contradiction|]. apply IH, Hin. }
  rewrite Hone. simpl. eexists. split; [exact Hres|]. split; [reflexivity|].
  unfold zscores. split; intros ->; [reflexivity|].
  clear. induction values as [|v values IH]; simpl; [reflexivity|].
  f_equal. exact IH.
Qed.

End IndicesFacts.

Lemma date_ge_trans : Transitive date_ge.
Proof. intros a b c. unfold date_ge. lia. Qed.

Lemma date_ge_total : Total date_ge.
Proof. intros a b. unfold date_ge. lia. Qed.

Lemma select_history_nil (db : database) :
  select_history db = [] <-> daily_index db = [].
Proof.
  unfold select_history. split.
  - intros Hnil. apply Permutation_nil_r.
    rewrite <- (merge_sort_Permutation date_ge).
    destruct (merge_sort date_ge (daily_index db)); [reflexivity|discriminate].
  - intros ->. reflexivity.
Qed.

Lemma history_mask (today : date) (history : list index_row) :
  is_text today <$> ((DateObject ∘ row_date <$> history) ++ [DateText today])
  = replicate (length history) false ++ [true].
Proof.
  rewrite fmap_app. simpl. rewrite bool_decide_eq_true_2 by reflexivity. f_equal.
  induction history as [|r history IH]; simpl; [reflexivity|]. f_equal. exact IH.
Qed.

(** The asset's query keeps the rows with the latest dates: the table
    is the rows used together with the rows left out, no row left out
    is dated after a row used, and exactly the rows beyond 180 are left
    out. *)
Theorem history_keeps_latest_rows (db : database) :
  exists dropped,
    select_history db ++ dropped ≡ₚ daily_index db /\
    (forall r r', r ∈ select_history db -> r' ∈ dropped ->
                  row_date r' ≤ row_date r) /\
    length dropped = (length (daily_index db) - 180)%nat.
Proof.
  exists (drop 180 (merge_sort date_ge (daily_index db))).
  unfold select_history. split; [|split].
  - rewrite take_drop. apply merge_sort_Permutation.
  - intros r r' Hr Hr'.
    pose proof (@StronglySorted_merge_sort _ date_ge _ date_ge_trans date_ge_total
                  (daily_index db)) as Hs.
    rewrite <- (take_drop 180) in Hs.
    exact (StronglySorted_app_1_elem_of _ _ _ _ _ Hs Hr Hr').
  - rewrite length_drop, merge_sort_Permutation. reflexivity.
Qed.

Section AssetFacts.
Context `{!Pandas}.

(** The value of one index in the row the asset picks out of the
    normalised frame. *)
Lemma normalized_today (today : date) (h : index_row) (history : list index_row)
    (scores : index_row) :
  let historical := h :: history in
  let combined_df :=
    {| frame_date := (DateObject ∘ row_date <$> historical) ++ [DateText today];
       frame_columns := index_columns (historical ++ [scores]) |} in
  exists normalized_df,
    normalize_data combined_df ["capability"; "attention"; "market"; "regulatory"]%string
      = Ok normalized_df /\
    select_rows (is_text today <$> frame_date normalized_df) (frame_date normalized_df)
      = [DateText today] /\
    forall name f, index_field name = Some f ->
      first_value
        {| frame_date :=
             select_rows (is_text today <$> frame_date normalized_df)
                         (frame_date normalized_df);
           frame_columns :=
             select_rows (is_text today <$> frame_date normalized_df)
               <$> frame_columns normalized_df |}
        name
      = Ok (zscore_of_day (f <$> historical) (f scores)).
Proof.
  cbv zeta.
  edestruct normalize_data_columns as (normalized & Hnorm & Hdate & Hcols);
    [|exists normalized; split; [exact Hnorm|]].
  { unfold not. rewrite !elem_of_cons, elem_of_nil.
    intros [H0|[H0|[H0|[H0|[]]]]]; discriminate H0. }
  rewrite Hdate. cbn [frame_date]. rewrite history_mask. split.
  - apply (select_rows_last (DateObject ∘ row_date <$> h :: history)).
    apply length_fmap.
  - intros name f Hf. unfold first_value. cbn [frame_columns].
    rewrite lookup_fmap, Hcols. cbn [frame_columns].
    rewrite (index_columns_lookup _ _ _ Hf), fmap_app.
    assert (Hone : length (filter (fun c => c = name)
                     ["capability"; "attention"; "market"; "regulatory"]%string) = 1%nat).
    { apply index_field_names in Hf.
      destruct Hf as [[-> _]|[[-> _]|[[-> _]|[-> _]]]]; reflexivity. }
    rewrite Hone.
    change ((select_rows ?m <$> (Nat.iter 1 zscores <$> Some ?l)) ≫= head)
      with (head (select_rows m (zscores l))).
    change (f <$> [scores]) with [f scores].
    destruct (zscores_snoc (f <$> h :: history) (f scores)) as (front & -> & Hlen).
    rewrite length_fmap in Hlen.
    rewrite (select_rows_last _ _ _ Hlen). reflexivity.
Qed.

(** What the asset does, whatever rows its history query returned. *)
Lemma daily_index_from_values (today : date) (files : staged)
    (historical : list index_row) (db : database) :
  exists frame,
    frame_date frame = [DateText today] /\
    daily_index_from today files historical db =
      (Ok frame,
       {| daily_index :=
            daily_index db ++ [stored_index (day_values today files historical)];
          alerts := alerts db |}).
Proof.
  unfold daily_index_from. cbv zeta.
  destruct historical as [|h history].
  - cbn [mbind result_bind]. unfold first_value. cbn [frame_columns].
    rewrite (index_columns_lookup _ "capability" capability eq_refl).
    rewrite (index_columns_lookup _ "attention" attention eq_refl).
    rewrite (index_columns_lookup _ "market" market eq_refl).
    rewrite (index_columns_lookup _ "regulatory" regulatory eq_refl).
    eexists. split; [|reflexivity]. reflexivity.
  - destruct (normalized_today today h history (day_scores today files))
      as (normalized & Hnorm & Hdate & Hvalue).
    unfold day_scores in Hnorm, Hvalue. rewrite Hnorm.
    cbn [mbind result_bind].
    rewrite (Hvalue "capability"%string capability eq_refl).
    rewrite (Hvalue "attention"%string attention eq_refl).
    rewrite (Hvalue "market"%string market eq_refl).
    rewrite (Hvalue "regulatory"%string regulatory eq_refl).
    cbn [mbind result_bind]. eexists. split; [|reflexivity]. exact Hdate.
Qed.

(** Whatever rows the history query returned, and also when the table
    already has a row for today, the asset raises nothing and adds
    exactly one row, dated today, at the end of [daily_index], provided
    the four values of the day fit their [FLOAT] columns; the other
    rows and [alerts] stay as they were, and the frame returned has the
    one row of today. *)
Theorem daily_index_asset_appends (today : date) (files : staged)
    (historical : list index_row) (db : database) :
  index_row_fits (day_values today files historical) = true ->
  exists frame row,
    daily_index_from today files historical db =
      (Ok frame, {| daily_index := daily_index db ++ [row]; alerts := alerts db |}) /\
    row_date row = today /\
    frame_date frame = [DateText today].
Proof.
  intros _.
  destruct (daily_index_from_values today files historical db) as (frame & Hdate & ->).
  eexists _, _. split; [reflexivity|]. split; [|exact Hdate].
  destruct historical; reflexivity.
Qed.

(** On a table without rows the asset stores the scores of the day, not
    z-scores, each as rounded to its [FLOAT] column: 0 for an index
    whose file is missing, and the mean of the two attention scores. *)
Theorem first_day_is_raw (today : date) (files : staged) (db : database) :
  daily_index db = [] ->
  index_row_fits (day_scores today files) = true ->
  daily_index (daily_index_asset today files db).2 =
    [mkIndexRow today
       (to_float32 (default 0%float (capabilities_mean files)))
       (to_float32
          ((default 0%float (trends_mean files)
            + default 0%float (news_mean files)) / 2)%float)
       (to_float32 (default 0%float (polymarket_mean files)))
       (to_float32 (default 0%float (legislation_mean files)))].
Proof.
  intros Hempty _. apply select_history_nil in Hempty as Hsel.
  unfold daily_index_asset. rewrite Hsel.
  destruct (daily_index_from_values today files [] db) as (frame & _ & ->).
  cbn [snd daily_index]. rewrite Hempty. reflexivity.
Qed.

(** When the history query returned rows, each index of the row stored
    is the z-score of the day's score within the values of those rows
    followed by that score (0 when their deviation is not positive),
    as rounded to its [FLOAT] column. *)
Theorem later_days_are_zscores (today : date) (files : staged)
    (historical : list index_row) (db : database) :
  historical <> [] ->
  index_row_fits (day_values today files historical) = true ->
  forall name f, index_field name = Some f ->
    exists row,
      daily_index (daily_index_from today files historical db).2
        = daily_index db ++ [row] /\
      f row = to_float32
                (zscore_of_day (f <$> historical) (f (day_scores today files))).
Proof.
  intros Hne _ name f Hf.
  destruct (daily_index_from_values today files historical db) as (frame & _ & ->).
  eexists. split; [reflexivity|].
  destruct historical as [|h history]; [contradiction|].
  apply index_field_names in Hf.
  destruct Hf as [[_ ->]|[[_ ->]|[[_ ->]|[_ ->]]]]; reflexivity.
Qed.

End AssetFacts.

(** ** The asset and the job together *)

Lemma earliest_before_rest (rows : list index_row) (r r' : index_row) :
  r ∈ take 180 (merge_sort date_le rows) ->
  r' ∈ drop 180 (merge_sort date_le rows) ->
  row_date r ≤ row_date r'.
Proof.
  intros Hr Hr'.
  pose proof (@StronglySorted_merge_sort _ date_le _ date_le_trans date_le_total rows) as Hs.
  rewrite <- (take_drop 180) in Hs.
  exact (StronglySorted_app_1_elem_of _ _ _ _ _ Hs Hr Hr').
Qed.

Section AssetAndJob.
Context `{!Pandas}.

Lemma daily_index_asset_result (today : date) (files : staged) (db : database) :
  exists frame row,
    daily_index_asset today files db =
      (Ok frame, {| daily_index := daily_index db ++ [row]; alerts := alerts db |}) /\
    row_date row = today.
Proof.
  unfold daily_index_asset.
  destruct (daily_index_from_values today files (select_history db) db)
    as (frame & _ & ->).
  eexists _, _. split; [reflexivity|].
  destruct (select_history db); reflexivity.
Qed.

(** Once [daily_index] holds 180 rows or more, all dated before today,
    the row the asset adds today is not among the rows that
    [load_daily_indices] selects, so it does not reach the detectors. *)
Theorem todays_row_is_not_loaded (today : date) (files : staged) (db : database) :
  (180 <= length (daily_index db))%nat ->
  (forall r, r ∈ daily_index db -> row_date r < today) ->
  exists row,
    daily_index (daily_index_asset today files db).2 = daily_index db ++ [row] /\
    row_date row = today /\
    row ∉ select_daily_index (daily_index_asset today files db).2.
Proof.
  intros Hlen Hold.
  destruct (daily_index_asset_result today files db) as (frame & row & -> & Hdate).
  exists row. split; [reflexivity|]. split; [exact Hdate|].
  unfold select_daily_index. cbn [snd daily_index].
  set (s := merge_sort date_le (daily_index db ++ [row])).
  assert (Hperm : s ≡ₚ row :: daily_index db).
  { unfold s. rewrite merge_sort_Permutation. symmetry. apply Permutation_cons_append. }
  intros Hin.
  assert (Hdrop : row ∈ drop 180 s).
  { destruct (drop 180 s) as [|r' rest] eqn:Hd.
    - apply (f_equal length) in Hd. rewrite length_drop, Hperm in Hd.
      simpl in Hd. lia.
    - assert (Hr' : r' ∈ drop 180 s) by (rewrite Hd; left).
      pose proof (earliest_before_rest _ _ _ Hin Hr') as Hle.
      assert (Hmem : r' ∈ s) by (rewrite <- (take_drop 180 s), elem_of_app; auto).
      rewrite Hperm in Hmem. apply elem_of_cons in Hmem.
      destruct Hmem as [->|Hmem]; [left|].
      apply Hold in Hmem. lia. }
  apply elem_of_Permutation in Hin. destruct Hin as (front & Hfront).
  apply elem_of_Permutation in Hdrop. destruct Hdrop as (back & Hback).
  rewrite <- (take_drop 180 s), Hfront, Hback in Hperm. simpl in Hperm.
  apply Permutation_cons_inv in Hperm.
  assert (Hrow : row ∈ daily_index db).
  { rewrite <- Hperm, elem_of_app. right. left. }
  apply Hold in Hrow. lia.
Qed.

End AssetAndJob.

(** ** The asset on concrete inputs *)

Lemma normalize_data_shape_witness :
  (exists res,
     normalize_data market_frame ["market"%string] = Ok res /\
     frame_date res = frame_date market_frame /\
     forall name,
       match frame_columns market_frame !! name with
       | None => frame_columns res !! name = None
       | Some values =>
           exists values',
             frame_columns res !! name = Some values' /\
             length values' = length values /\
             (name ∉ ["market"%string] -> values' = values)
       end) /\
  normalize_data market_frame ["market"; "date"]%string = Raise TypeError.
Proof.
  split.
  - apply (proj1 (normalize_data_shape market_frame ["market"%string])).
    rewrite list_elem_of_singleton. discriminate.
  - apply (proj2 (normalize_data_shape market_frame ["market"; "date"]%string)).
    + discriminate.
    + rewrite !elem_of_cons. auto.
Defined.

Lemma normalize_data_zscore_witness :
  exists res values',
    normalize_data market_frame ["market"%string] = Ok res /\
    frame_columns res !! "market"%string = Some values' /\
    (PrimFloat.ltb 0 (series_std [3; 1; 5]%float) = true ->
     values' = (fun v => (v - series_mean [3; 1; 5]%float)
                         / series_std [3; 1; 5]%float)%float <$> [3; 1; 5]%float) /\
    (PrimFloat.ltb 0 (series_std [3; 1; 5]%float) = false ->
     values' = replicate (length [3; 1; 5]%float) 0%float).
Proof.
  apply (normalize_data_zscore market_frame ["market"%string] "market"%string).
  - apply NoDup_singleton.
  - rewrite list_elem_of_singleton. discriminate.
  - apply list_elem_of_singleton. reflexivity.
  - reflexivity.
Defined.

Lemma daily_index_asset_appends_witness :
  exists frame row,
    daily_index_from 2 day3_files two_days (no_alerts two_days) =
      (Ok frame, {| daily_index := daily_index (no_alerts two_days) ++ [row];
                    alerts := alerts (no_alerts two_days) |}) /\
    row_date row = 2 /\
    frame_date frame = [DateText 2].
Proof.
  apply (daily_index_asset_appends 2 day3_files two_days (no_alerts two_days)).
  vm_compute. reflexivity.
Defined.

Lemma first_day_is_raw_witness :
  daily_index (daily_index_asset 3 day3_files (no_alerts [])).2 =
    [mkIndexRow 3
       (to_float32 (default 0%float (capabilities_mean day3_files)))
       (to_float32
          ((default 0%float (trends_mean day3_files)
            + default 0%float (news_mean day3_files)) / 2)%float)
       (to_float32 (default 0%float (polymarket_mean day3_files)))
       (to_float32 (default 0%float (legislation_mean day3_files)))].
Proof. exact (first_day_is_raw 3 day3_files (no_alerts []) eq_refl eq_refl). Defined.

Lemma later_days_are_zscores_witness :
  exists row,
    daily_index (daily_index_from 3 day3_files two_days (no_alerts two_days)).2
      = daily_index (no_alerts two_days) ++ [row] /\
    market row = to_float32 (zscore_of_day (market <$> two_days)
                                           (market (day_scores 3 day3_files))).
Proof.
  refine (later_days_are_zscores 3 day3_files two_days (no_alerts two_days) _ _
            "market"%string market eq_refl).
  - discriminate.
  - vm_compute. reflexivity.
Defined.

Lemma todays_row_is_not_loaded_witness :
  exists row,
    daily_index (daily_index_asset 182 day3_files (no_alerts long_history)).2
      = daily_index (no_alerts long_history) ++ [row] /\
    row_date row = 182 /\
    row ∉ select_daily_index (daily_index_asset 182 day3_files (no_alerts long_history)).2.
Proof.
  apply (todays_row_is_not_loaded 182 day3_files (no_alerts long_history)).
  - assert (Hlen : length long_history = 181%nat) by (vm_compute; reflexivity).
    cbn [daily_index no_alerts]. rewrite Hlen. lia.
  - intros r Hr. apply list_elem_of_In in Hr.
    assert (Hall : forallb (fun r => Z.ltb (row_date r) 182) long_history = true)
      by (vm_compute; reflexivity).
    rewrite forallb_forall in Hall. apply Z.ltb_lt, Hall, Hr.
Defined.
